(** * mkv_to_web.py: command construction, probing and batch conversion

    A shallow embedding of [src/mkv_to_web.py].  Python values keep the
    shape the script gives them: integers are [Z], floats are IEEE values
    ([spec_float]), [None]-able arguments are [option]s, the argument vector
    handed to [subprocess.run] is a [list string].  Everything the script asks
    of the outside world (the file system, the two executables, [json.loads],
    [float()], [repr] of a float) is a variable of the section that needs it. *)

From Stdlib Require Import ZArith List String Ascii Bool Lia.
From Stdlib Require Import Floats.SpecFloat.
From Stdlib Require Import Numbers.DecimalString Numbers.DecimalZ.
Import ListNotations.

Local Open Scope string_scope.
Local Open Scope list_scope.
Local Open Scope Z_scope.

(** ** Python numbers *)

(** [start_time] and [duration] reach the converter either as the [int]
    default or as the [float] argparse produced. *)
Inductive number : Type :=
  | Int (z : Z)
  | Float (f : spec_float).

(** [str(z)] for a Python [int]. *)
Definition str_int (z : Z) : string := NilZero.string_of_int (Z.to_int z).

(** The number of digits of a numeral, its sign apart. *)
Definition literal_digits (s : string) : nat :=
  match s with
  | String "-" digits => String.length digits
  | _ => String.length s
  end.

(** The default limit on the digits of a decimal integer literal. *)
Definition max_str_digits : nat := 4300.

(** [x > 0] *)
Definition gt0 (x : number) : bool :=
  match x with
  | Int z => 0 <? z
  | Float f => SFltb (S754_zero false) f
  end.

(** [bool(x)]: an [int] is true unless it is [0], a [float] unless it
    compares equal to [0.0] (so [-0.0] is false and [nan] is true). *)
Definition truthy (x : number) : bool :=
  match x with
  | Int z => negb (z =? 0)
  | Float f => negb (SFeqb f (S754_zero false))
  end.

(** [bool(x)] for an [Optional[int]] / [Optional[float]] argument. *)
Definition truthy_int (x : option Z) : bool :=
  match x with
  | Some z => negb (z =? 0)
  | None => false
  end.

Definition truthy_num (x : option number) : bool :=
  match x with
  | Some n => truthy n
  | None => false
  end.

(** ** ConversionOptions: the keyword arguments of [convert_mkv_to_webp] *)

Record options : Type := mkOptions {
  start_time : number;
  duration : option number;
  fps : Z;
  width : option Z;
  height : option Z;
  quality : Z;
  lossless : bool;
  loop : bool;
  verbose : bool
}.

(** The defaults of the signature, lines 37-41. *)
Definition default_options : options :=
  {| start_time := Int 0; duration := None; fps := 12;
     width := None; height := None; quality := 80;
     lossless := false; loop := true; verbose := false |}.

Definition with_duration (d : option number) (o : options) : options :=
  {| start_time := start_time o; duration := d; fps := fps o;
     width := width o; height := height o; quality := quality o;
     lossless := lossless o; loop := loop o; verbose := verbose o |}.

Section Builder.

(** [str(x)] for a Python [float] (the shortest round-tripping decimal);
    the command builder only copies its result. *)
Variable float_str : spec_float -> string.

(** [str(x)] *)
Definition str (x : number) : string :=
  match x with
  | Int z => str_int z
  | Float f => float_str f
  end.

(** [f'{x}'] / [str(x)] for an optional argument: [None] prints as
    ["None"]. *)
Definition str_opt_int (x : option Z) : string :=
  match x with
  | Some z => str_int z
  | None => "None"
  end.

Definition str_opt (x : option number) : string :=
  match x with
  | Some n => str n
  | None => "None"
  end.

(** Lines 77-85: the [filters] list after the resize step. *)
Definition scale_filters (o : options) : list string :=
  let filters := [] in
  if truthy_int (width o) && truthy_int (height o) then
    filters ++ [("scale=" ++ str_opt_int (width o) ++ ":"
                           ++ str_opt_int (height o))%string]
  else if truthy_int (width o) then
    filters ++ [("scale=" ++ str_opt_int (width o) ++ ":-1")%string]
  else if truthy_int (height o) then
    filters ++ [("scale=-1:" ++ str_opt_int (height o))%string]
  else filters.

(** Lines 64-109 of [convert_mkv_to_webp]: the argument vector [cmd],
    one [let] per [cmd.extend]. *)
Definition build_cmd (input_file output_file : string) (o : options)
  : list string :=
  let cmd := ["ffmpeg"] in
  let cmd := cmd ++ ["-i"; input_file] in
  let cmd := if gt0 (start_time o)
             then cmd ++ ["-ss"; str (start_time o)] else cmd in
  let cmd := if truthy_num (duration o)
             then cmd ++ ["-t"; str_opt (duration o)] else cmd in
  let filters := scale_filters o in
  let cmd := cmd ++ ["-r"; str_int (fps o)] in
  let cmd := match filters with
             | [] => cmd
             | _ :: _ => cmd ++ ["-vf"; String.concat "," filters]
             end in
  let cmd := if lossless o
             then cmd ++ ["-lossless"; "1"]
             else cmd ++ ["-quality"; str_int (quality o)] in
  let cmd := if loop o then cmd ++ ["-loop"; "0"] else cmd in
  let cmd := cmd ++ ["-y"; output_file] in
  let cmd := if verbose o then cmd else cmd ++ ["-loglevel"; "error"] in
  cmd.

End Builder.

(** ** Paths: [os.path.splitext] and [os.path.join] (posixpath) *)

(** [s.rfind(c)] for a one-character [c]: the index of the last occurrence,
    [-1] when there is none.  [i] is the index of the head of [s], [last]
    the best index seen so far. *)
Fixpoint rfind_from (c : ascii) (s : string) (i last : Z) : Z :=
  match s with
  | EmptyString => last
  | String a s' => rfind_from c s' (i + 1) (if Ascii.eqb a c then i else last)
  end.

Definition rfind (s : string) (c : ascii) : Z := rfind_from c s 0 (-1).

(** [p[:k]], [p[k:]] and [p[i:i+1]] for indices that are not negative. *)
Definition slice_to (p : string) (k : Z) : string :=
  substring 0 (Z.to_nat k) p.

Definition slice_from (p : string) (k : Z) : string :=
  substring (Z.to_nat k) (String.length p - Z.to_nat k) p.

Definition char_at (p : string) (i : Z) : string :=
  substring (Z.to_nat i) 1 p.

(** The [while filenameIndex < dotIndex] loop of [genericpath._splitext],
    run for the [n = dotIndex - filenameIndex] iterations it can take:
    [true] when it returns from inside (a character that is not a dot was
    found), [false] when it falls through. *)
Fixpoint skip_leading_dots (p : string) (filenameIndex : Z) (n : nat) : bool :=
  match n with
  | O => false
  | S n' =>
      if negb (char_at p filenameIndex =? ".")%string then true
      else skip_leading_dots p (filenameIndex + 1) n'
  end.

(** [os.path.splitext(p)]: [genericpath._splitext] with [sep = '/'],
    no [altsep], [extsep = '.']. *)
Definition splitext (p : string) : string * string :=
  let sepIndex := rfind p "/" in
  let dotIndex := rfind p "." in
  if (dotIndex >? sepIndex)
     && skip_leading_dots p (sepIndex + 1) (Z.to_nat (dotIndex - (sepIndex + 1)))
  then (slice_to p dotIndex, slice_from p dotIndex)
  else (p, "").

(** [s.endswith(suffix)] *)
Fixpoint endswith (s suffix : string) : bool :=
  (s =? suffix)%string ||
  match s with
  | EmptyString => false
  | String _ s' => endswith s' suffix
  end.

(** [os.path.join(a, b)] for two components (posixpath). *)
Definition path_join (a b : string) : string :=
  if prefix "/" b then b
  else if (a =? "")%string || endswith a "/" then (a ++ b)%string
  else (a ++ "/" ++ b)%string.

(** Whether the character [c] occurs in [s]. *)
Fixpoint has_char (c : ascii) (s : string) : bool :=
  match s with
  | EmptyString => false
  | String a s' => Ascii.eqb a c || has_char c s'
  end.

(** Lines 58-60: the output name of a single conversion.  [not output_file]
    holds for [None] and for the empty string. *)
Definition resolve_output (input_file : string) (output_file : option string)
  : string :=
  match output_file with
  | Some (String _ _ as given) => given
  | _ =>
      let base_name := fst (splitext input_file) in
      (base_name ++ "_algorithm_viz.webp")%string
  end.

(** Lines 191-192: the output path of one batch item. *)
Definition batch_output_path (output_dir mkv_file : string) : string :=
  let output_name := (fst (splitext mkv_file) ++ "_algorithm_viz.webp")%string in
  path_join output_dir output_name.

(** ** Exceptions, JSON values, events *)

(** The [Exception] subclasses the script can meet; [OSError] stands for
    the operating-system errors other than the two named before it. *)
Inductive exn : Type :=
  | FileNotFoundError
  | PermissionError
  | OSError
  | ZeroDivisionError
  | OverflowError
  | TypeError
  | ValueError
  | AttributeError
  | SyntaxError
  | JSONDecodeError.

Inductive outcome (A : Type) : Type :=
  | Ret (a : A)
  | Raise (e : exn).
Arguments Ret {A} a.
Arguments Raise {A} e.

(** What no [except Exception] clause holds back: an exception that is a
    [BaseException] and no [Exception], or a call that does not return. *)
Inductive escape : Type :=
  | System_exit (status : Z)   (* the status the interpreter exits with *)
  | Keyboard_interrupt
  | Base_exception             (* any other one, [GeneratorExit] say *)
  | Never_returns.

(** How a call that may evaluate foreign code ends: as any call does, or
    by an escape. *)
Inductive completion (A : Type) : Type :=
  | Normal (r : outcome A)
  | Escaped (x : escape).
Arguments Normal {A} r.
Arguments Escaped {A} x.

(** A result or an exception is read as the completion it is, also
    inside a triple of completion, world and trace. *)
Coercion Normal : outcome >-> completion.
Arguments pair {A B} & a b.

(** What [json.loads] returns; an object keeps its members in order. *)
#[warnings="-register-all"]
Inductive json : Type :=
  | JNull
  | JBool (b : bool)
  | JInt (z : Z)
  | JFloat (f : spec_float)
  | JStr (s : string)
  | JList (items : list json)
  | JDict (members : list (string * json)).

(** What [eval] can hand back: an [int], a [float], or any other object, of
    which only how formatting it with [.2f] ends matters: it may return,
    raise ([ValueError] for a [str]), or run code of its own. *)
Inductive pyobj : Type :=
  | ObjInt (z : Z)
  | ObjFloat (f : spec_float)
  | ObjOther (formatted : completion unit).

(** [subprocess.run(..., capture_output=True, text=True)] *)
Inductive run_result : Type :=
  | Completed (returncode : Z) (stdout stderr : string)
  | Launch_failed (e : exn).

(** The lines the script prints, one constructor per [print] call, with
    the values its f-string interpolates. *)
Inductive message : Type :=
  | Msg_ffmpeg_not_found                      (* line 48 *)
  | Msg_install (line : nat)                  (* lines 30-34, numbered 0-4 *)
  | Msg_input_not_found (input_file : string) (* line 54 *)
  | Msg_converting (input_file output_file : string)   (* line 62 *)
  | Msg_running (cmd : list string)           (* line 112 *)
  | Msg_conversion_successful                 (* line 119 *)
  | Msg_output (output_file : string)         (* line 120 *)
  | Msg_size (bytes : Z)                      (* line 121 *)
  | Msg_output_not_created                    (* line 124 *)
  | Msg_ffmpeg_error                          (* line 127 *)
  | Msg_stderr (text : string)                (* line 128 *)
  | Msg_error_running (e : exn)               (* line 132 *)
  | Msg_video_info                            (* line 155 *)
  | Msg_duration (seconds : spec_float)       (* line 156 *)
  | Msg_resolution (w h : json)               (* line 157 *)
  | Msg_frame_rate (fps : pyobj)              (* line 158 *)
  | Msg_no_video_info (e : exn)               (* line 162 *)
  | Msg_directory_not_found (input_dir : string)   (* line 170 *)
  | Msg_no_mkv_files                          (* line 183 *)
  | Msg_found (count : Z)                     (* line 186 *)
  | Msg_converting_item (mkv_file : string)   (* line 194 *)
  | Msg_converted (success_count total : Z)   (* line 199 *)
  | Msg_info_needs_file                       (* line 234 *)
  | Msg_analyzing                             (* line 255 *)
  | Msg_blank                                 (* line 257 *)
  | Msg_compression                           (* line 268 *)
  | Msg_original (bytes : Z)                  (* line 269 *)
  | Msg_webp (bytes : Z)                      (* line 270 *)
  | Msg_saved (original_bytes webp_bytes : Z) (* line 271 *)
  | Msg_cancelled                             (* line 274 *)
  | Msg_error (e : exn)                       (* line 276 *)
  | Msg_banner                                (* line 280 *)
  | Msg_rule                                  (* line 281 *)
  | Msg_usage (line : nat).                   (* lines 284-289, numbered 0-5 *)

(** What a run leaves behind: the lines printed and the processes started,
    in order. *)
Inductive event : Type :=
  | Print (m : message)
  | Run (argv : list string).

(** The argument vectors of the processes a trace started. *)
Fixpoint launches (trace : list event) : list (list string) :=
  match trace with
  | [] => []
  | Run argv :: rest => argv :: launches rest
  | Print _ :: rest => launches rest
  end.

(** The lines a trace printed. *)
Fixpoint printed (trace : list event) : list message :=
  match trace with
  | [] => []
  | Print m :: rest => m :: printed rest
  | Run _ :: rest => printed rest
  end.

(** [bool(result)] for the [Optional[str]] the converter returns. *)
Definition truthy_str (x : option string) : bool :=
  match x with
  | Some (String _ _) => true
  | _ => false
  end.

(** ** The script over an arbitrary outside world *)

Section Script.

Variable float_str : spec_float -> string.

(** The state of everything outside the interpreter. *)
Variable world : Type.

(** [os.stat(path).st_size], or the [OSError] of [os.stat]. *)
Variable stat_size : string -> world -> outcome Z.
Variable isfile : string -> world -> bool.
Variable isdir : string -> world -> bool.
(** [os.listdir] *)
Variable listdir : string -> world -> outcome (list string).
(** [os.makedirs(path, exist_ok=True)] *)
Variable makedirs : string -> world -> outcome unit * world.
(** Starting a child process and waiting for it. *)
Variable spawn : list string -> world -> run_result * world.
(** [json.loads] *)
Variable json_loads : string -> outcome json.
(** [float(x)] *)
Variable py_float : json -> outcome spec_float.
(** The correctly rounded quotient of two integers, [None] when it is too
    large for a [float]. *)
Variable round_quotient : Z -> Z -> option spec_float.
(** [str.lower] *)
Variable lower : string -> string.

(** A computation: from a world to a result or an exception, the world it
    leaves and the events it produced. *)
Definition M (A : Type) : Type := world -> outcome A * world * list event.

Definition ret {A} (a : A) : M A := fun w => (Ret a, w, []).

Definition raise {A} (e : exn) : M A := fun w => (Raise e, w, []).

Definition bind {A B} (m : M A) (k : A -> M B) : M B :=
  fun w =>
    match m w with
    | (Ret a, w1, t1) =>
        match k a w1 with
        | (r, w2, t2) => (r, w2, t1 ++ t2)
        end
    | (Raise e, w1, t1) => (Raise e, w1, t1)
    end.

(** [try: m  except Exception as e: handler e] *)
Definition try_except {A} (m : M A) (handler : exn -> M A) : M A :=
  fun w =>
    match m w with
    | (Ret a, w1, t1) => (Ret a, w1, t1)
    | (Raise e, w1, t1) =>
        match handler e w1 with
        | (r, w2, t2) => (r, w2, t1 ++ t2)
        end
    end.

Definition lift {A} (r : outcome A) : M A := fun w => (r, w, []).

Definition print (m : message) : M unit := fun w => (Ret tt, w, [Print m]).

Notation "x <- m ;; k" := (bind m (fun x => k))
  (at level 61, m at next level, right associativity).
Notation "m ;; k" := (bind m (fun _ => k))
  (at level 61, right associativity).

(** A computation that can also end by an escape. *)
Definition ME (A : Type) : Type := world -> completion A * world * list event.

Definition plain {A} (m : M A) : ME A :=
  fun w => match m w with (r, w1, t) => (Normal r, w1, t) end.

Definition bind_e {A B} (m : ME A) (k : A -> ME B) : ME B :=
  fun w =>
    match m w with
    | (Normal (Ret a), w1, t1) =>
        match k a w1 with
        | (c, w2, t2) => (c, w2, t1 ++ t2)
        end
    | (Normal (Raise e), w1, t1) => (Normal (Raise e), w1, t1)
    | (Escaped x, w1, t1) => (Escaped x, w1, t1)
    end.

(** [try: m  except Exception as e: handler e]: an escape passes. *)
Definition try_except_e {A} (m : ME A) (handler : exn -> ME A) : ME A :=
  fun w =>
    match m w with
    | (Normal (Raise e), w1, t1) =>
        match handler e w1 with
        | (c, w2, t2) => (c, w2, t1 ++ t2)
        end
    | (c, w1, t1) => (c, w1, t1)
    end.

Notation "x <~ m ;; k" := (bind_e m (fun x => k))
  (at level 61, m at next level, right associativity).
Notation "m ~;; k" := (bind_e m (fun _ => k))
  (at level 61, right associativity).

(** [subprocess.run(argv, capture_output=True, text=True)]: the completed
    process, or the exception the launch raised. *)
Definition subprocess_run (argv : list string) : M (Z * string * string) :=
  fun w =>
    match spawn argv w with
    | (Completed rc out err, w') => (Ret (rc, out, err), w', [Run argv])
    | (Launch_failed e, w') => (Raise e, w', [Run argv])
    end.

(** [os.path.exists]: whether [os.stat] succeeds. *)
Definition path_exists (path : string) : M bool :=
  fun w => (Ret (match stat_size path w with Ret _ => true | Raise _ => false end),
            w, []).

(** [os.path.getsize] *)
Definition getsize (path : string) : M Z :=
  fun w => (stat_size path w, w, []).

Definition os_path_isfile (path : string) : M bool :=
  fun w => (Ret (isfile path w), w, []).

Definition os_path_isdir (path : string) : M bool :=
  fun w => (Ret (isdir path w), w, []).

Definition os_listdir (path : string) : M (list string) :=
  fun w => (listdir path w, w, []).

Definition os_makedirs (path : string) : M unit :=
  fun w => (makedirs path w, []).

(** Lines 16-25.  Only [FileNotFoundError] is caught; any other exception
    of the launch leaves the function. *)
Definition check_ffmpeg : M bool :=
  try_except
    (result <- subprocess_run ["ffmpeg"; "-version"] ;;
     let '(returncode, _, _) := result in
     if returncode =? 0 then ret true else ret false)
    (fun e => match e with
              | FileNotFoundError => ret false
              | _ => raise e
              end).

(** Lines 28-34. *)
Definition install_ffmpeg_suggestion : M unit :=
  print (Msg_install 0) ;; print (Msg_install 1) ;; print (Msg_install 2) ;;
  print (Msg_install 3) ;; print (Msg_install 4).

(** Lines 37-133. *)
Definition convert_mkv_to_webp (input_file : string)
    (output_file : option string) (o : options) : M (option string) :=
  ok <- check_ffmpeg ;;
  if negb ok then
    print Msg_ffmpeg_not_found ;; install_ffmpeg_suggestion ;; ret None
  else
  found <- path_exists input_file ;;
  if negb found then
    print (Msg_input_not_found input_file) ;; ret None
  else
  let output_file := resolve_output input_file output_file in
  print (Msg_converting input_file output_file) ;;
  let cmd := build_cmd float_str input_file output_file o in
  try_except
    (print (Msg_running cmd) ;;
     result <- subprocess_run cmd ;;
     let '(returncode, _, stderr) := result in
     if returncode =? 0 then
       created <- path_exists output_file ;;
       if created then
         file_size <- getsize output_file ;;
         print Msg_conversion_successful ;;
         print (Msg_output output_file) ;;
         print (Msg_size file_size) ;;
         ret (Some output_file)
       else
         print Msg_output_not_created ;; ret None
     else
       print Msg_ffmpeg_error ;; print (Msg_stderr stderr) ;; ret None)
    (fun e => print (Msg_error_running e) ;; ret None).

(** *** The probe *)

(** [a / b] on two [int]s. *)
Definition int_truediv (a b : Z) : outcome spec_float :=
  if b =? 0 then Raise ZeroDivisionError
  else match round_quotient a b with
       | Some f => Ret f
       | None => Raise OverflowError
       end.

(** A decimal integer literal as Python's grammar has it (no leading
    zeros, no underscores), possibly under one unary minus, and of no more
    digits than the default of [sys.get_int_max_str_digits()]: an
    interpreter with that limit rejects a longer literal, one without it
    does not, so a longer literal is none of the literals fixed here. *)
Definition int_literal (s : string) : option Z :=
  match NilZero.int_of_string s with
  | Some d =>
      let z := Z.of_int d in
      if (str_int z =? s)%string
         && (literal_digits s <=? max_str_digits)%nat
      then Some z else None
  | None => None
  end.

(** [s.partition('/')] when the separator occurs. *)
Fixpoint split_slash (s : string) : option (string * string) :=
  match s with
  | EmptyString => None
  | String c s' =>
      if Ascii.eqb c "/" then Some ("", s')
      else match split_slash s' with
           | Some (a, b) => Some (String c a, b)
           | None => None
           end
  end.

(** The expressions whose evaluation is fixed here: an integer literal,
    and the quotient of two integer literals.  [None] for every other
    string. *)
Definition eval_arith (s : string) : option (outcome pyobj) :=
  match int_literal s with
  | Some z => Some (Ret (ObjInt z))
  | None =>
      match split_slash s with
      | Some (a, b) =>
          match int_literal a, int_literal b with
          | Some num, Some den =>
              Some (match int_truediv num den with
                    | Ret f => Ret (ObjFloat f)
                    | Raise e => Raise e
                    end)
          | _, _ => None
          end
      | None => None
      end
  end.

(** What [eval] does with any other string: whatever the expression
    says, the world and the trace included.  It may return an object,
    raise an exception, or end by an escape ([exit(7)] raises
    [SystemExit]). *)
Variable eval_other : string -> ME pyobj.

(** [eval(s)] *)
Definition py_eval (s : string) : ME pyobj :=
  match eval_arith s with
  | Some r => plain (lift r)
  | None => eval_other s
  end.

(** [d.get(key, default)]; only a [dict] has the method. *)
Fixpoint assoc (key : string) (members : list (string * json)) : option json :=
  match members with
  | [] => None
  | (k, v) :: rest => if (k =? key)%string then Some v else assoc key rest
  end.

Definition dict_get (d : json) (key : string) (default : json) : outcome json :=
  match d with
  | JDict members =>
      Ret (match assoc key members with Some v => v | None => default end)
  | _ => Raise AttributeError
  end.

(** The items a [for] loop draws from a JSON value. *)
Definition iterate (x : json) : outcome (list json) :=
  match x with
  | JList items => Ret items
  | JDict members => Ret (map (fun kv => JStr (fst kv)) members)
  | JStr s => Ret (map (fun c => JStr (String c "")) (list_ascii_of_string s))
  | _ => Raise TypeError
  end.

Definition json_eqb_str (x : json) (s : string) : bool :=
  match x with
  | JStr t => (t =? s)%string
  | _ => false
  end.

(** Line 153: [eval(stream.get('r_frame_rate', '0/1'))]. *)
Definition frame_rate (stream : json) : ME pyobj :=
  rate <~ plain (lift (dict_get stream "r_frame_rate" (JStr "0/1"))) ;;
  match rate with
  | JStr s => py_eval s
  | _ => plain (raise TypeError)
  end.

(** [f"{fps:.2f}"]: an [int] is converted to a [float] first, which
    raises when it rounds to no finite binary64 number. *)
Definition format_2f (x : pyobj) : completion unit :=
  match x with
  | ObjInt z =>
      if Z.abs z <? 2 ^ 1024 - 2 ^ 970 then Normal (Ret tt)
      else Normal (Raise OverflowError)
  | ObjFloat _ => Normal (Ret tt)
  | ObjOther formatted => formatted
  end.

Definition formatting (x : pyobj) : ME unit :=
  fun w => (format_2f x, w, []).

Definition video_info : Type := option (spec_float * json * json * pyobj).

(** Lines 148-159: the loop over the streams. *)
Fixpoint find_video_stream (streams : list json) : ME video_info :=
  match streams with
  | [] => plain (ret None)
  | stream :: rest =>
      codec_type <~ plain (lift (dict_get stream "codec_type" JNull)) ;;
      if json_eqb_str codec_type "video" then
        raw <~ plain (lift (dict_get stream "duration" (JInt 0))) ;;
        duration <~ plain (lift (py_float raw)) ;;
        width <~ plain (lift (dict_get stream "width" (JInt 0))) ;;
        height <~ plain (lift (dict_get stream "height" (JInt 0))) ;;
        fps <~ frame_rate stream ;;
        plain (print Msg_video_info ;;
               print (Msg_duration duration) ;;
               print (Msg_resolution width height)) ~;;
        formatting fps ~;;
        plain (print (Msg_frame_rate fps) ;;
               ret (Some (duration, width, height, fps)))
      else find_video_stream rest
  end.

(** Lines 136-164. *)
Definition get_video_info (input_file : string) : ME video_info :=
  try_except_e
    (let cmd := ["ffprobe"; "-v"; "quiet"; "-print_format"; "json";
                 "-show_format"; "-show_streams"; input_file] in
     result <~ plain (subprocess_run cmd) ;;
     let '(returncode, stdout, _) := result in
     if returncode =? 0 then
       data <~ plain (lift (json_loads stdout)) ;;
       streams <~ plain (lift (dict_get data "streams" (JList []))) ;;
       items <~ plain (lift (iterate streams)) ;;
       find_video_stream items
     else plain (ret None))
    (fun e => plain (print (Msg_no_video_info e) ;; ret None)).

(** *** The batch *)

(** Lines 188-197: the loop, with [success_count] as it stands on entry. *)
Fixpoint batch_loop (input_dir output_dir : string) (o : options)
    (mkv_files : list string) (success_count : Z) : M Z :=
  match mkv_files with
  | [] => ret success_count
  | mkv_file :: rest =>
      let input_path := path_join input_dir mkv_file in
      let output_path := batch_output_path output_dir mkv_file in
      print (Msg_converting_item mkv_file) ;;
      result <- convert_mkv_to_webp input_path (Some output_path) o ;;
      let success_count :=
        if truthy_str result then success_count + 1 else success_count in
      batch_loop input_dir output_dir o rest success_count
  end.

(** Lines 179-180. *)
Definition select_mkv (names : list string) : list string :=
  filter (fun f => endswith (lower f) ".mkv") names.

(** Lines 167-199. *)
Definition batch_convert (input_dir : string) (output_dir : option string)
    (o : options) : M unit :=
  is_dir <- os_path_isdir input_dir ;;
  if negb is_dir then
    print (Msg_directory_not_found input_dir) ;; ret tt
  else
  let output_dir := match output_dir with
                    | Some (String _ _ as given) => given
                    | _ => input_dir
                    end in
  os_makedirs output_dir ;;
  names <- os_listdir input_dir ;;
  let mkv_files := select_mkv names in
  match mkv_files with
  | [] => print Msg_no_mkv_files ;; ret tt
  | _ :: _ =>
      print (Msg_found (Z.of_nat (List.length mkv_files))) ;;
      success_count <- batch_loop input_dir output_dir o mkv_files 0 ;;
      print (Msg_converted success_count (Z.of_nat (List.length mkv_files)))
  end.

(** *** The command line *)

(** The namespace [parser.parse_args()] returns. *)
Record args : Type := mkArgs {
  arg_input : string;
  arg_output : option string;
  arg_start : number;
  arg_duration : option number;
  arg_fps : Z;
  arg_width : option Z;
  arg_height : option Z;
  arg_quality : Z;
  arg_lossless : bool;
  arg_no_loop : bool;
  arg_batch : bool;
  arg_verbose : bool;
  arg_info : bool
}.

(** Lines 238-248. *)
Definition params (a : args) : options :=
  {| start_time := arg_start a; duration := arg_duration a;
     fps := arg_fps a; width := arg_width a; height := arg_height a;
     quality := arg_quality a; lossless := arg_lossless a;
     loop := negb (arg_no_loop a); verbose := arg_verbose a |}.

(** Lines 250 and 273-276: [try: body  except KeyboardInterrupt: ...
    except Exception as e: ...]. *)
Definition guarded (body : ME unit) : ME unit :=
  fun w =>
    match body w with
    | (Escaped Keyboard_interrupt, w1, t1) =>
        (Normal (Ret tt), w1, t1 ++ [Print Msg_cancelled])
    | (Normal (Raise e), w1, t1) =>
        (Normal (Ret tt), w1, t1 ++ [Print (Msg_error e)])
    | (c, w1, t1) => (c, w1, t1)
    end.

(** Lines 202-276, after [parse_args] has returned. *)
Definition main (a : args) : ME unit :=
  if arg_info a then
    is_file <~ plain (os_path_isfile (arg_input a)) ;;
    if is_file then get_video_info (arg_input a) ~;; plain (ret tt)
    else plain (print Msg_info_needs_file ;; ret tt)
  else
  let o := params a in
  guarded
    (is_dir <~ plain (os_path_isdir (arg_input a)) ;;
     if arg_batch a || is_dir then
       plain (batch_convert (arg_input a) (arg_output a) o)
     else
       plain (print Msg_analyzing) ~;;
       get_video_info (arg_input a) ~;;
       plain (print Msg_blank ;;
              result <- convert_mkv_to_webp (arg_input a) (arg_output a) o ;;
              match result with
              | Some (String _ _ as written) =>
                  original_size <- getsize (arg_input a) ;;
                  webp_size <- getsize written ;;
                  (if original_size =? 0 then raise ZeroDivisionError
                   else ret tt) ;;
                  print Msg_compression ;;
                  print (Msg_original original_size) ;;
                  print (Msg_webp webp_size) ;;
                  print (Msg_saved original_size webp_size)
              | _ => ret tt
              end)).

(** How the interpreter was started: with no argument at all, or with
    arguments that [parse_args] accepted. *)
Inductive invocation : Type :=
  | No_arguments
  | Parsed (a : args).

(** Lines 279-292: the script body and the exit status of the process.
    An exception that nothing caught ends the interpreter with status 1,
    [SystemExit] with its own status; an interrupt that nothing caught,
    or a call that does not return, leaves no status here. *)
Definition script (inv : invocation) : ME Z :=
  plain (print Msg_banner) ~;;
  plain (print Msg_rule) ~;;
  match inv with
  | No_arguments =>
      plain (print (Msg_usage 0) ;; print (Msg_usage 1) ;;
             print (Msg_usage 2) ;; print (Msg_usage 3) ;;
             print (Msg_usage 4) ;; print (Msg_usage 5) ;;
             ret 1)
  | Parsed a =>
      fun w =>
        match main a w with
        | (Normal (Ret _), w', t) => (Normal (Ret 0), w', t)
        | (Normal (Raise _), w', t) => (Normal (Ret 1), w', t)
        | (Escaped (System_exit status), w', t) => (Normal (Ret status), w', t)
        | (Escaped Base_exception, w', t) => (Normal (Ret 1), w', t)
        | (Escaped x, w', t) => (Escaped x, w', t)
        end
  end.

End Script.

(** ** Reading an argument vector *)

(** The values that directly follow an occurrence of [flag] in [argv]. *)
Fixpoint flag_values (flag : string) (argv : list string) : list string :=
  match argv with
  | [] => []
  | a :: rest =>
      match rest with
      | [] => []
      | v :: _ =>
          if (a =? flag)%string then v :: flag_values flag rest
          else flag_values flag rest
      end
  end.

(** Whether [flag] occurs in [argv] directly followed by [value]. *)
Definition has_flag_value (flag value : string) (argv : list string) : bool :=
  existsb (fun v => (v =? value)%string) (flag_values flag argv).

(** The flags of an argument vector laid out as the program name followed
    by flag/value pairs: the entries at positions 1, 3, 5, ... *)
Fixpoint every_other (l : list string) : list string :=
  match l with
  | [] => []
  | a :: rest =>
      a :: match rest with
           | [] => []
           | _ :: rest' => every_other rest'
           end
  end.

Definition flags_of (argv : list string) : list string :=
  every_other (tl argv).


(** The flag/value pairs [build_cmd] appends, and the argument list they
    make up. *)
Definition flatten (ps : list (string * string)) : list string :=
  flat_map (fun p => [fst p; snd p]) ps.

Definition appended (float_str : spec_float -> string)
    (input_file output_file : string) (o : options) : list (string * string) :=
  [("-i", input_file)]
  ++ (if gt0 (start_time o) then [("-ss", str float_str (start_time o))] else [])
  ++ (if truthy_num (duration o)
      then [("-t", str_opt float_str (duration o))] else [])
  ++ [("-r", str_int (fps o))]
  ++ match scale_filters o with
     | [] => []
     | _ :: _ => [("-vf", String.concat "," (scale_filters o))]
     end
  ++ (if lossless o then [("-lossless", "1")]
      else [("-quality", str_int (quality o))])
  ++ (if loop o then [("-loop", "0")] else [])
  ++ [("-y", output_file)]
  ++ (if verbose o then [] else [("-loglevel", "error")]).

(** ** The command as the specification words it *)

Section Rules.

Variable float_str : spec_float -> string.

(** Rules 1-10 of the command builder, each as the arguments it emits;
    an optional field counts as set when it is present. *)
Definition rule_input (input_file : string) : list string :=
  ["-i"; input_file].

Definition rule_seek (o : options) : list string :=
  if gt0 (start_time o) then ["-ss"; str float_str (start_time o)] else [].

Definition rule_duration (o : options) : list string :=
  match duration o with
  | Some d => ["-t"; str float_str d]
  | None => []
  end.

Definition rule_scale (o : options) : option string :=
  match width o, height o with
  | Some W, Some H => Some ("scale=" ++ str_int W ++ ":" ++ str_int H)%string
  | Some W, None => Some ("scale=" ++ str_int W ++ ":-1")%string
  | None, Some H => Some ("scale=-1:" ++ str_int H)%string
  | None, None => None
  end.

Definition rule_frame_rate (o : options) : list string :=
  ["-r"; str_int (fps o)].

Definition rule_filter (o : options) : list string :=
  match rule_scale o with
  | Some f => ["-vf"; f]
  | None => []
  end.

Definition rule_quality (o : options) : list string :=
  if lossless o then ["-lossless"; "1"] else ["-quality"; str_int (quality o)].

Definition rule_loop (o : options) : list string :=
  if loop o then ["-loop"; "0"] else [].

Definition rule_overwrite (output_file : string) : list string :=
  ["-y"; output_file].

Definition rule_quiet (o : options) : list string :=
  if verbose o then [] else ["-loglevel"; "error"].

Definition spec_arguments (input_file output_file : string) (o : options)
  : list string :=
  rule_input input_file ++ rule_seek o ++ rule_duration o
    ++ rule_frame_rate o ++ rule_filter o ++ rule_quality o ++ rule_loop o
    ++ rule_overwrite output_file ++ rule_quiet o.

End Rules.

(** The data model of the options (section 3 of the specification), as
    far as the builder depends on it: a duration, width or height that is
    given is positive. *)
Definition positive_when_given (o : options) : Prop :=
  (forall d, duration o = Some d -> gt0 d = true) /\
  (forall W, width o = Some W -> 0 < W) /\
  (forall H, height o = Some H -> 0 < H).

(** What the builder needs of it: a field that is given is not zero, so
    that the truth test of lines 73 and 80-84 sees it. *)
Definition nonzero_when_given (o : options) : Prop :=
  (forall d, duration o = Some d -> truthy d = true) /\
  (forall W, width o = Some W -> W <> 0) /\
  (forall H, height o = Some H -> H <> 0).

(** A duration that equals zero: [0], [0.0] or [-0.0]. *)
Definition is_zero (d : number) : Prop :=
  d = Int 0 \/ exists s, d = Float (S754_zero s).



(** ** Reading a trace *)

(** The batch items a trace announced, in order. *)
Fixpoint attempted (trace : list event) : list string :=
  match trace with
  | [] => []
  | Print (Msg_converting_item f) :: rest => f :: attempted rest
  | _ :: rest => attempted rest
  end.

(** How many conversions a trace reported as successful. *)
Fixpoint successes (trace : list event) : Z :=
  match trace with
  | [] => 0
  | Print Msg_conversion_successful :: rest => 1 + successes rest
  | _ :: rest => successes rest
  end.

(** The batch reports a trace printed. *)
Fixpoint reports (trace : list event) : list (Z * Z) :=
  match trace with
  | [] => []
  | Print (Msg_converted k n) :: rest => (k, n) :: reports rest
  | _ :: rest => reports rest
  end.

(** The argument vector of the availability check, line 19. *)
Definition version_query : list string := ["ffmpeg"; "-version"].

(** The lines of [install_ffmpeg_suggestion]. *)
Definition installation_guidance : list message :=
  [Msg_install 0; Msg_install 1; Msg_install 2; Msg_install 3; Msg_install 4].

(** ** Conditions on the outside world *)

(** Launching the version query raises nothing but [FileNotFoundError]. *)
Definition probe_settles {world : Type}
    (spawn : list string -> world -> run_result * world) : Prop :=
  forall w e w1,
    spawn version_query w = (Launch_failed e, w1) -> e = FileNotFoundError.

(** The availability check answers [False] in every world. *)
Definition tool_unavailable {world : Type}
    (spawn : list string -> world -> run_result * world) : Prop :=
  forall w, fst (fst (check_ffmpeg world spawn w)) = Ret false.


(** ** The frame rate as the specification words it *)

(** The rational string ["num/den"] read as two integers and divided;
    no value for any other string or for a zero denominator.
    [quotient num den] is the float the division yields. *)
Definition parse_frame_rate (quotient : Z -> Z -> outcome spec_float)
    (s : string) : option spec_float :=
  match split_slash s with
  | Some (a, b) =>
      match NilZero.int_of_string a, NilZero.int_of_string b with
      | Some num, Some den =>
          match quotient (Z.of_int num) (Z.of_int den) with
          | Ret f => Some f
          | Raise _ => None
          end
      | _, _ => None
      end
  | None => None
  end.

(** The value [eval] left, when it is a float. *)
Definition float_value (r : outcome pyobj) : option spec_float :=
  match r with
  | Ret (ObjFloat f) => Some f
  | _ => None
  end.

(** ** More ways to write options and to read a run *)

Definition with_width (x : option Z) (o : options) : options :=
  {| start_time := start_time o; duration := duration o; fps := fps o;
     width := x; height := height o; quality := quality o;
     lossless := lossless o; loop := loop o; verbose := verbose o |}.

Definition with_height (x : option Z) (o : options) : options :=
  {| start_time := start_time o; duration := duration o; fps := fps o;
     width := width o; height := x; quality := quality o;
     lossless := lossless o; loop := loop o; verbose := verbose o |}.

Definition with_start_time (x : number) (o : options) : options :=
  {| start_time := x; duration := duration o; fps := fps o;
     width := width o; height := height o; quality := quality o;
     lossless := lossless o; loop := loop o; verbose := verbose o |}.

(** The flags the builder knows, in the order it emits them. *)
Definition flag_order : list string :=
  ["-i"; "-ss"; "-t"; "-r"; "-vf"; "-lossless"; "-quality"; "-loop"; "-y";
   "-loglevel"].

(** Whether [l1] can be read off [l2] from left to right. *)
Fixpoint subsequence (l1 l2 : list string) : bool :=
  match l2 with
  | [] => match l1 with [] => true | _ :: _ => false end
  | y :: l2' =>
      match l1 with
      | [] => true
      | x :: l1' =>
          if (x =? y)%string then subsequence l1' l2' else subsequence l1 l2'
      end
  end.

(** Whether an argument vector starts the transcoder. *)
Definition is_ffmpeg (argv : list string) : bool :=
  match argv with
  | program :: _ => (program =? "ffmpeg")%string
  | [] => false
  end.

(** The argument vector of the probe, lines 139-140. *)
Definition ffprobe_query (input_file : string) : list string :=
  ["ffprobe"; "-v"; "quiet"; "-print_format"; "json"; "-show_format";
   "-show_streams"; input_file].


Definition is_dict (x : json) : bool :=
  match x with
  | JDict _ => true
  | _ => false
  end.


(** The lines of the compression summary, lines 268-271. *)
Definition compression_report (original_size webp_size : Z) : list event :=
  [Print Msg_compression; Print (Msg_original original_size);
   Print (Msg_webp webp_size); Print (Msg_saved original_size webp_size)].

(** ** A small world to run the script in *)

Module Sample.

(** What is installed under the name [ffmpeg]. *)
Inductive tool : Type :=
  | Absent            (* no such executable *)
  | Not_executable    (* a file without the execute permission *)
  | Silent            (* exits with status 0 and writes nothing *)
  | Writing.          (* exits with status 0 and writes the output file *)

Record disk : Type := mkDisk {
  files : list (string * Z);
  directories : list (string * list string)
}.

Fixpoint lookup {A : Type} (key : string) (table : list (string * A))
  : option A :=
  match table with
  | [] => None
  | (k, v) :: rest => if (k =? key)%string then Some v else lookup key rest
  end.

Definition stat_size (path : string) (w : disk) : outcome Z :=
  match lookup path (files w) with
  | Some n => Ret n
  | None => match lookup path (directories w) with
            | Some _ => Ret 4096
            | None => Raise FileNotFoundError
            end
  end.

Definition isfile (path : string) (w : disk) : bool :=
  match lookup path (files w) with Some _ => true | None => false end.

Definition isdir (path : string) (w : disk) : bool :=
  match lookup path (directories w) with Some _ => true | None => false end.

Definition listdir (path : string) (w : disk) : outcome (list string) :=
  match lookup path (directories w) with
  | Some names => Ret names
  | None => Raise FileNotFoundError
  end.

Definition makedirs (path : string) (w : disk) : outcome unit * disk :=
  if isfile path w then (Raise OSError, w)
  else if isdir path w then (Ret tt, w)
  else (Ret tt, mkDisk (files w) ((path, []) :: directories w)).

(** [ffmpeg] behaves as [installed] says; [ffprobe] is not installed. *)
Definition spawn (installed : tool) (argv : list string) (w : disk)
  : run_result * disk :=
  match argv with
  | "ffmpeg" :: rest =>
      match installed with
      | Absent => (Launch_failed FileNotFoundError, w)
      | Not_executable => (Launch_failed PermissionError, w)
      | Silent => (Completed 0 "" "", w)
      | Writing =>
          match flag_values "-y" rest with
          | out :: _ =>
              (Completed 0 "" "", mkDisk ((out, 1000) :: files w) (directories w))
          | [] => (Completed 0 "" "", w)
          end
      end
  | _ => (Launch_failed FileNotFoundError, w)
  end.

(** [str] on the floats used below: 5.0 and 3.0 in binary64, the zeros,
    the infinities and [nan]; no other float occurs. *)
Definition five : spec_float := S754_finite false 5629499534213120 (-50).
Definition three : spec_float := S754_finite false 6755399441055744 (-51).

Definition float_str (f : spec_float) : string :=
  match f with
  | S754_zero false => "0.0"
  | S754_zero true => "-0.0"
  | S754_infinity false => "inf"
  | S754_infinity true => "-inf"
  | S754_nan => "nan"
  | S754_finite false 5629499534213120 (-50) => "5.0"
  | S754_finite false 6755399441055744 (-51) => "3.0"
  | S754_finite _ _ _ => "1.0"
  end.

Definition json_loads (s : string) : outcome json := Raise JSONDecodeError.
Definition py_float (x : json) : outcome spec_float := Raise TypeError.
Definition round_quotient (a b : Z) : option spec_float := None.
Definition lower (s : string) : string := s.
Definition eval_other (s : string) : ME disk pyobj :=
  plain disk (raise disk SyntaxError).

(** A directory with two videos and a text file. *)
Definition videos : disk :=
  mkDisk [("videos/a.mkv", 5000); ("videos/b.mkv", 7000);
          ("videos/notes.txt", 10)]
         [("videos", ["a.mkv"; "notes.txt"; "b.mkv"])].

Definition run_convert (installed : tool) :=
  convert_mkv_to_webp float_str disk stat_size (spawn installed).

Definition run_batch (installed : tool) :=
  batch_convert float_str disk stat_size isdir listdir makedirs
    (spawn installed) lower.

Definition run_script (installed : tool) :=
  script float_str disk stat_size isfile isdir listdir makedirs
    (spawn installed) json_loads py_float round_quotient lower eval_other.

Definition run_eval := py_eval disk round_quotient eval_other.

(** [--info] on a directory. *)
Definition info_on_directory : args :=
  {| arg_input := "videos"; arg_output := None; arg_start := Int 0;
     arg_duration := None; arg_fps := 12; arg_width := None;
     arg_height := None; arg_quality := 80; arg_lossless := false;
     arg_no_loop := false; arg_batch := false; arg_verbose := false;
     arg_info := true |}.

(** A directory given as input, with the defaults. *)
Definition batch_on_directory : args :=
  {| arg_input := "videos"; arg_output := None; arg_start := Int 0;
     arg_duration := None; arg_fps := 12; arg_width := None;
     arg_height := None; arg_quality := 80; arg_lossless := false;
     arg_no_loop := false; arg_batch := false; arg_verbose := false;
     arg_info := false |}.

(** Options with a seek, a duration and a width. *)
Definition trimmed : options :=
  {| start_time := Float five; duration := Some (Float three);
     fps := 15; width := Some 800; height := None; quality := 90;
     lossless := false; loop := true; verbose := false |}.

End Sample.

(** ** A world with a probe and a faulty transcoder *)

Module Studio.

(** How [ffmpeg] fails once it has answered the version query. *)
Inductive fault : Type :=
  | Crashing    (* the launch raises [OSError] *)
  | Failing.    (* exits with status 1 and a line on standard error *)

Definition audio_stream : json := JDict [("codec_type", JStr "audio")].

Definition video_members : list (string * json) :=
  [("codec_type", JStr "video"); ("width", JInt 640); ("height", JInt 360);
   ("duration", JStr "5.0"); ("r_frame_rate", JStr "5/1")].

Definition video_stream : json := JDict video_members.

(** What [ffprobe] writes, named rather than spelled out, and what
    [json.loads] makes of it. *)
Definition report : string := "<streams: audio, video 640x360 5.0s 5/1>".

Definition json_loads (s : string) : outcome json :=
  if (s =? report)%string
  then Ret (JDict [("streams", JList [audio_stream; video_stream])])
  else Raise JSONDecodeError.

Definition py_float (x : json) : outcome spec_float :=
  match x with
  | JInt 0 => Ret (S754_zero false)
  | JInt _ => Ret Sample.five
  | JFloat f => Ret f
  | JStr s => if (s =? "5.0")%string then Ret Sample.five else Raise ValueError
  | _ => Raise TypeError
  end.

(** The quotients that occur below. *)
Definition round_quotient (a b : Z) : option spec_float :=
  if a =? 0 then Some (S754_zero false)
  else if (a =? 5 * b) then Some Sample.five
  else if (a =? 3 * b) then Some Sample.three
  else None.

Definition spawn (mode : fault) (argv : list string) (w : Sample.disk)
  : run_result * Sample.disk :=
  match argv with
  | program :: option :: _ =>
      if (program =? "ffmpeg")%string then
        if (option =? "-version")%string then (Completed 0 "" "", w)
        else match mode with
             | Crashing => (Launch_failed OSError, w)
             | Failing => (Completed 1 "" "Invalid data found", w)
             end
      else if (program =? "ffprobe")%string then (Completed 0 report "", w)
      else (Launch_failed FileNotFoundError, w)
  | _ => (Launch_failed FileNotFoundError, w)
  end.

Definition run_convert (mode : fault) :=
  convert_mkv_to_webp Sample.float_str Sample.disk Sample.stat_size
    (spawn mode).

Definition run_probe :=
  get_video_info Sample.disk (spawn Failing) json_loads py_float
    round_quotient Sample.eval_other.


Definition rate :=
  frame_rate Sample.disk round_quotient Sample.eval_other.

(** One file given as input, with the defaults. *)
Definition single_file : args :=
  {| arg_input := "videos/a.mkv"; arg_output := None; arg_start := Int 0;
     arg_duration := None; arg_fps := 12; arg_width := None;
     arg_height := None; arg_quality := 80; arg_lossless := false;
     arg_no_loop := false; arg_batch := false; arg_verbose := false;
     arg_info := false |}.

(** The sample directory once [a.mkv] is converted. *)
Definition converted : Sample.disk :=
  Sample.mkDisk
    (("videos/a_algorithm_viz.webp", 1000) :: Sample.files Sample.videos)
    (Sample.directories Sample.videos).

Definition run_main (installed : Sample.tool) :=
  main Sample.float_str Sample.disk Sample.stat_size Sample.isfile
    Sample.isdir Sample.listdir Sample.makedirs (Sample.spawn installed)
    Sample.json_loads Sample.py_float Sample.round_quotient Sample.lower
    Sample.eval_other.

End Studio.

(** ** A world whose probe reports the frame rate [exit(7)] *)

Module Hostile.

Definition video_members : list (string * json) :=
  [("codec_type", JStr "video"); ("r_frame_rate", JStr "exit(7)")].

(** What [ffprobe] writes, named rather than spelled out, and what
    [json.loads] makes of it. *)
Definition report : string := "<streams: video, frame rate exit(7)>".

Definition json_loads (s : string) : outcome json :=
  if (s =? report)%string
  then Ret (JDict [("streams", JList [JDict video_members])])
  else Raise JSONDecodeError.

(** [ffprobe] is installed, [ffmpeg] is not. *)
Definition spawn (argv : list string) (w : Sample.disk)
  : run_result * Sample.disk :=
  match argv with
  | program :: _ =>
      if (program =? "ffprobe")%string then (Completed 0 report "", w)
      else (Launch_failed FileNotFoundError, w)
  | [] => (Launch_failed FileNotFoundError, w)
  end.

(** [exit(7)] raises [SystemExit(7)]; no other string is evaluated
    below. *)
Definition eval_other (s : string) : ME Sample.disk pyobj :=
  fun w =>
    if (s =? "exit(7)")%string then (Escaped (System_exit 7), w, [])
    else (Normal (Raise SyntaxError), w, []).

Definition run_probe :=
  get_video_info Sample.disk spawn json_loads Studio.py_float
    Studio.round_quotient eval_other.

Definition run_script :=
  script Sample.float_str Sample.disk Sample.stat_size Sample.isfile
    Sample.isdir Sample.listdir Sample.makedirs spawn json_loads
    Studio.py_float Studio.round_quotient Sample.lower eval_other.

(** [--info] on one file. *)
Definition info_on_file : args :=
  {| arg_input := "videos/a.mkv"; arg_output := None; arg_start := Int 0;
     arg_duration := None; arg_fps := 12; arg_width := None;
     arg_height := None; arg_quality := 80; arg_lossless := false;
     arg_no_loop := false; arg_batch := false; arg_verbose := false;
     arg_info := true |}.

End Hostile.

(* ================================================================== *)
(** * Properties *)

(** ** Paths *)

Section PathFacts.

Variable c : ascii.

Lemma rfind_from_shift (s : string) (i last : Z) :
  rfind_from c s i last
  = if rfind s c <? 0 then last else i + rfind s c.
Proof.
  revert i last. induction s as [|a s IH]; intros i last; [reflexivity|].
  unfold rfind. cbn [rfind_from]. rewrite (IH (i + 1)), (IH (0 + 1)).
  fold (rfind s c). destruct (rfind s c <? 0) eqn:E.
  - destruct (Ascii.eqb a c); simpl; lia.
  - apply Z.ltb_ge in E.
    destruct (0 + 1 + rfind s c <? 0) eqn:E'; [apply Z.ltb_lt in E'; lia | lia].
Qed.

Lemma rfind_bounds (s : string) :
  -1 <= rfind s c < Z.of_nat (String.length s).
Proof.
  induction s as [|a s IH]; [cbn; lia|].
  unfold rfind. cbn [rfind_from String.length]. rewrite rfind_from_shift.
  destruct (rfind s c <? 0) eqn:E.
  - destruct (Ascii.eqb a c); lia.
  - apply Z.ltb_ge in E. lia.
Qed.

Lemma rfind_absent (s : string) : has_char c s = false -> rfind s c = -1.
Proof.
  induction s as [|a s IH]; [reflexivity|].
  cbn [has_char]. intros H. apply orb_false_iff in H as [Ha Hs].
  unfold rfind. cbn [rfind_from]. rewrite Ha, rfind_from_shift, (IH Hs).
  reflexivity.
Qed.

Lemma rfind_from_app (s1 s2 : string) (i last : Z) :
  rfind_from c (s1 ++ s2) i last
  = if rfind s2 c <? 0 then rfind_from c s1 i last
    else i + Z.of_nat (String.length s1) + rfind s2 c.
Proof.
  revert i last. induction s1 as [|a s1 IH]; intros i last.
  - cbn [String.append String.length rfind_from]. rewrite rfind_from_shift.
    destruct (rfind s2 c <? 0); cbn; lia.
  - cbn [String.append rfind_from String.length]. rewrite IH.
    destruct (rfind s2 c <? 0); [reflexivity | lia].
Qed.

Lemma rfind_app (s1 s2 : string) :
  rfind (s1 ++ s2) c
  = if rfind s2 c <? 0 then rfind s1 c
    else Z.of_nat (String.length s1) + rfind s2 c.
Proof. unfold rfind at 1. rewrite rfind_from_app. reflexivity. Qed.

End PathFacts.

Lemma append_assoc (a b d : string) :
  ((a ++ b) ++ d = a ++ (b ++ d))%string.
Proof. induction a as [|x a IH]; [reflexivity | cbn; now rewrite IH]. Qed.

Lemma substring_app_skip (D f : string) (j n : nat) :
  substring (String.length D + j) n (D ++ f) = substring j n f.
Proof. induction D as [|x D IH]; [reflexivity | exact IH]. Qed.

Lemma substring_app_take (D f : string) (n : nat) :
  (substring 0 (String.length D + n) (D ++ f) = D ++ substring 0 n f)%string.
Proof. induction D as [|x D IH]; [reflexivity | cbn; now rewrite IH]. Qed.

Lemma skip_leading_dots_app (D f : string) (k : Z) (n : nat) :
  0 <= k ->
  skip_leading_dots (D ++ f) (Z.of_nat (String.length D) + k) n
  = skip_leading_dots f k n.
Proof.
  revert k. induction n as [|n IH]; intros k Hk; [reflexivity|].
  cbn [skip_leading_dots]. unfold char_at.
  replace (Z.to_nat (Z.of_nat (String.length D) + k))
    with (String.length D + Z.to_nat k)%nat by lia.
  rewrite substring_app_skip.
  replace (Z.of_nat (String.length D) + k + 1)
    with (Z.of_nat (String.length D) + (k + 1)) by lia.
  rewrite IH by lia. reflexivity.
Qed.

Lemma gtb_false (a b : Z) : a <= b -> (a >? b) = false.
Proof. intros H. rewrite Z.gtb_ltb. now apply Z.ltb_ge. Qed.

Lemma gtb_true (a b : Z) : b < a -> (a >? b) = true.
Proof. intros H. rewrite Z.gtb_ltb. now apply Z.ltb_lt. Qed.

Lemma length_app (a b : string) :
  String.length (a ++ b) = (String.length a + String.length b)%nat.
Proof. induction a as [|x a IH]; [reflexivity | cbn; now rewrite IH]. Qed.

(** A directory prefix that ends in a slash moves out of [splitext]. *)
Lemma splitext_under_directory (D f : string) :
  has_char "/" f = false ->
  (fst (splitext ((D ++ "/") ++ f)) = (D ++ "/") ++ fst (splitext f))%string.
Proof.
  intros Hf. unfold splitext.
  set (P := (D ++ "/")%string).
  assert (HlenP : Z.of_nat (String.length P) = Z.of_nat (String.length D) + 1).
  { unfold P. rewrite length_app. cbn. lia. }
  assert (HsepP : rfind P "/" = Z.of_nat (String.length D)).
  { unfold P. rewrite rfind_app. cbn. lia. }
  assert (HdotP : rfind P "." < Z.of_nat (String.length D)).
  { unfold P. rewrite rfind_app. cbn.
    pose proof (rfind_bounds "." D). lia. }
  rewrite !rfind_app, (rfind_absent "/" f Hf), HsepP. cbn [Z.ltb Z.compare].
  pose proof (rfind_bounds "." f) as Hb.
  destruct (rfind f "." <? 0) eqn:E.
  - apply Z.ltb_lt in E. assert (Er : rfind f "." = -1) by lia. rewrite Er.
    replace (rfind P "." >? Z.of_nat (String.length D)) with false
      by (symmetry; apply gtb_false; lia).
    reflexivity.
  - apply Z.ltb_ge in E.
    replace (Z.of_nat (String.length P) + rfind f "." >? Z.of_nat (String.length D))
      with true by (symmetry; apply gtb_true; lia).
    replace (rfind f "." >? -1) with true
      by (symmetry; apply gtb_true; lia).
    cbn [andb].
    replace (Z.of_nat (String.length D) + 1) with (Z.of_nat (String.length P) + 0)
      by lia.
    replace (Z.to_nat (Z.of_nat (String.length P) + rfind f "."
                       - (Z.of_nat (String.length P) + 0)))
      with (Z.to_nat (rfind f "." - (-1 + 1))) by lia.
    rewrite skip_leading_dots_app by lia.
    replace (-1 + 1) with 0 by lia.
    destruct (skip_leading_dots f 0 (Z.to_nat (rfind f "." - 0))); [|reflexivity].
    cbn [fst]. unfold slice_to.
    replace (Z.to_nat (Z.of_nat (String.length P) + rfind f "."))
      with (String.length P + Z.to_nat (rfind f "."))%nat by lia.
    apply substring_app_take.
Qed.

Lemma endswith_inv (s suffix : string) :
  endswith s suffix = true -> exists pre, s = (pre ++ suffix)%string.
Proof.
  induction s as [|a s IH]; cbn [endswith]; intros H;
    apply orb_true_iff in H as [H | H].
  - apply String.eqb_eq in H. now exists ""%string.
  - discriminate.
  - apply String.eqb_eq in H. now exists ""%string.
  - destruct (IH H) as [pre ->]. now exists (String a pre).
Qed.

Lemma prefix_slash_head (a : ascii) (s : string) :
  Ascii.eqb a "/" = false -> prefix "/" (String a s) = false.
Proof.
  intros H. cbn [prefix]. destruct (ascii_dec "/" a) as [E | E]; [|reflexivity].
  subst a. discriminate.
Qed.

(** How [path_join] treats every second component that does not start
    with a slash: it is kept as it is, or put behind one directory prefix
    that ends in a slash. *)
Lemma path_join_shape (d : string) :
  (forall g, prefix "/" g = false -> path_join d g = g) \/
  (exists D, forall g, prefix "/" g = false ->
             path_join d g = ((D ++ "/") ++ g)%string).
Proof.
  unfold path_join. destruct (d =? "")%string eqn:Ed.
  - left. intros g ->. apply String.eqb_eq in Ed. now subst d.
  - right. cbn [orb]. destruct (endswith d "/") eqn:Es.
    + destruct (endswith_inv _ _ Es) as [D ->]. exists D. now intros g ->.
    + exists d. intros g ->. now rewrite append_assoc.
Qed.

Lemma output_name_no_slash (f : string) :
  has_char "/" f = false ->
  prefix "/" (fst (splitext f) ++ "_algorithm_viz.webp") = false.
Proof.
  destruct f as [|a f]; [reflexivity|].
  cbn [has_char]. intros H. apply orb_false_iff in H as [Ha _].
  unfold splitext.
  destruct (_ && _); cbn [fst]; [|now apply prefix_slash_head].
  unfold slice_to. destruct (Z.to_nat _); [reflexivity|].
  cbn [substring String.append]. now apply prefix_slash_head.
Qed.

Lemma no_slash_not_absolute (f : string) :
  has_char "/" f = false -> prefix "/" f = false.
Proof.
  destruct f as [|a f]; [reflexivity|].
  cbn [has_char]. intros H. apply orb_false_iff in H as [Ha _].
  now apply prefix_slash_head.
Qed.

(** C8. With no output given, ["clip.mkv"] yields
    ["clip_algorithm_viz.webp"]; in general the output is the input with
    its extension stripped, then the suffix and the target extension.  The
    batch names an item by the same rule, applied to the file name and
    joined to the output directory; and when the output directory is the
    input directory (the default), the path of an item is the very path
    the single conversion derives from the item's input path. *)
Theorem derived_output_rule :
  resolve_output "clip.mkv" None = "clip_algorithm_viz.webp" /\
  (forall input_file,
     resolve_output input_file None
     = (fst (splitext input_file) ++ "_algorithm_viz" ++ ".webp")%string) /\
  (forall output_dir mkv_file,
     batch_output_path output_dir mkv_file
     = path_join output_dir (resolve_output mkv_file None)) /\
  (forall dir mkv_file,
     has_char "/" mkv_file = false ->
     batch_output_path dir mkv_file
     = resolve_output (path_join dir mkv_file) None).
Proof.
  split; [reflexivity | split; [reflexivity | split; [reflexivity|]]].
  intros dir f Hf. unfold batch_output_path, resolve_output.
  pose proof (output_name_no_slash f Hf) as Hname.
  pose proof (no_slash_not_absolute f Hf) as Habs.
  destruct (path_join_shape dir) as [Hj | [D Hj]];
    rewrite (Hj _ Hname), (Hj _ Habs); [reflexivity|].
  rewrite splitext_under_directory by assumption.
  symmetry. apply append_assoc.
Qed.

(** ** The command builder *)

Lemma positive_is_nonzero (o : options) :
  positive_when_given o -> nonzero_when_given o.
Proof.
  intros (Hd & Hw & Hh). repeat split.
  - intros d E. specialize (Hd d E). destruct d as [z | f]; simpl in *.
    + apply Z.ltb_lt in Hd. apply negb_true_iff, Z.eqb_neq. lia.
    + destruct f as [ [] | [] | | [] m e]; cbv in Hd |- *; congruence.
  - intros W E. specialize (Hw W E). lia.
  - intros H E. specialize (Hh H E). lia.
Qed.

Section BuilderFacts.

Variable float_str : spec_float -> string.





Lemma build_cmd_pairs (input_file output_file : string) (o : options) :
  build_cmd float_str input_file output_file o
  = "ffmpeg" :: flatten (appended float_str input_file output_file o).
Proof.
  unfold build_cmd, appended.
  destruct (gt0 (start_time o)), (truthy_num (duration o)),
    (scale_filters o), (lossless o), (loop o), (verbose o); reflexivity.
Qed.

Lemma flag_values_step (flag a v : string) (rest : list string) :
  flag_values flag (a :: v :: rest)
  = (if (a =? flag)%string then [v] else []) ++ flag_values flag (v :: rest).
Proof. cbn [flag_values]. now destruct (a =? flag)%string. Qed.

Lemma flatten_cons (f v : string) (ps : list (string * string)) :
  flatten ((f, v) :: ps) = f :: v :: flatten ps.
Proof. reflexivity. Qed.

(** When [value] is not the name of a flag of [ps], the only way to find
    it behind [flag] is as the value of a pair of [ps]. *)
Lemma has_flag_value_flatten (flag value : string) (ps : list (string * string)) :
  forallb (fun p => negb (fst p =? value)%string) ps = true ->
  forall head,
  has_flag_value flag value (head :: flatten ps)
  = existsb (fun p => (fst p =? flag)%string && (snd p =? value)%string) ps.
Proof.
  unfold has_flag_value.
  induction ps as [|[f v] ps IH]; intros Hall head; [reflexivity|].
  cbn [forallb fst] in Hall. apply andb_true_iff in Hall as [Hf Hps].
  apply negb_true_iff in Hf.
  rewrite flatten_cons, !flag_values_step, !existsb_app, (IH Hps v).
  cbn [existsb fst snd].
  destruct (head =? flag)%string, (f =? flag)%string;
    cbn [existsb andb orb]; rewrite ?Hf, ?orb_false_r; reflexivity.
Qed.






(** C1. For every options record of the data model (optional fields
    positive when given) the argument vector is the program name followed
    by the arguments of rules 1-10 in their order: input flag and path, seek
    flag iff [start_time > 0], duration flag iff a duration is given, the
    frame-rate flag, the video-filter flag iff a scale filter was built,
    the lossless or the quality flag, the loop flag iff [loop], the
    overwrite flag and output path, the quiet log level iff not
    [verbose]. *)
Theorem build_cmd_order (input_file output_file : string) (o : options) :
  positive_when_given o ->
  build_cmd float_str input_file output_file o
  = "ffmpeg" :: spec_arguments float_str input_file output_file o.
Proof.
  intros Hpos. apply positive_is_nonzero in Hpos.
  destruct Hpos as (Hd & Hw & Hh).
  unfold build_cmd, spec_arguments, scale_filters, rule_input, rule_seek,
    rule_duration, rule_frame_rate, rule_filter, rule_scale, rule_quality,
    rule_loop, rule_overwrite, rule_quiet.
  destruct o as [st du fp wi he qu lo lp ve]; simpl in *.
  assert (Ht : truthy_num du = match du with Some _ => true | None => false end).
  { destruct du as [d|]; simpl; auto. }
  assert (Hwi : truthy_int wi = match wi with Some _ => true | None => false end).
  { destruct wi as [W|]; simpl; auto. apply negb_true_iff, Z.eqb_neq; auto. }
  assert (Hhe : truthy_int he = match he with Some _ => true | None => false end).
  { destruct he as [H|]; simpl; auto. apply negb_true_iff, Z.eqb_neq; auto. }
  rewrite Ht, Hwi, Hhe.
  destruct (gt0 st), du, wi, he, lo, lp, ve; reflexivity.
Qed.


Lemma flags_of_flatten (head : string) (ps : list (string * string)) :
  flags_of (head :: flatten ps) = map fst ps.
Proof.
  unfold flags_of. cbn [tl].
  induction ps as [|[f v] ps IH]; [reflexivity|].
  rewrite flatten_cons. cbn [every_other map fst]. now rewrite IH.
Qed.

Lemma zero_is_falsy (d : number) : is_zero d -> truthy d = false.
Proof. intros [-> | [s ->]]; [reflexivity | now destruct s]. Qed.

(** C10. A duration of [0], [0.0] or [-0.0] is treated as no duration:
    the command is the one built without a duration, and no flag of it is
    the duration flag. *)
Theorem zero_duration_is_unset (input_file output_file : string)
    (o : options) (d : number) :
  is_zero d ->
  build_cmd float_str input_file output_file (with_duration (Some d) o)
  = build_cmd float_str input_file output_file (with_duration None o)
  /\ ~ In "-t" (flags_of (build_cmd float_str input_file output_file
                            (with_duration (Some d) o))).
Proof.
  intros Hz. apply zero_is_falsy in Hz. split.
  - unfold build_cmd, scale_filters. cbn [with_duration start_time duration fps
      width height quality lossless loop verbose truthy_num]. now rewrite Hz.
  - rewrite build_cmd_pairs, flags_of_flatten. unfold appended, scale_filters.
    cbn [with_duration start_time duration fps width height quality lossless
      loop verbose truthy_num]. rewrite Hz.
    destruct (gt0 (start_time o)),
      (truthy_int (width o) && truthy_int (height o)),
      (truthy_int (width o)), (truthy_int (height o)),
      (lossless o), (loop o), (verbose o); cbn; intuition discriminate.
Qed.

End BuilderFacts.

(** ** The converter and the batch *)

Section ConverterFacts.

Variable float_str : spec_float -> string.
Variable world : Type.
Variable stat_size : string -> world -> outcome Z.
Variable spawn : list string -> world -> run_result * world.

Local Abbreviation convert := (convert_mkv_to_webp float_str world stat_size spawn).
Local Abbreviation probe := (check_ffmpeg world spawn).

(** The availability check, case by case. *)
Lemma check_ffmpeg_cases (w : world) :
  probe w
  = match spawn version_query w with
    | (Completed rc _ _, w1) => (Ret (rc =? 0), w1, [Run version_query])
    | (Launch_failed FileNotFoundError, w1) => (Ret false, w1, [Run version_query])
    | (Launch_failed e, w1) => (Raise e, w1, [Run version_query])
    end.
Proof.
  unfold check_ffmpeg, try_except, bind, subprocess_run, ret, raise, version_query.
  destruct (spawn ["ffmpeg"; "-version"] w) as [[rc out err | e] w1].
  - destruct (rc =? 0); reflexivity.
  - destruct e; reflexivity.
Qed.

Lemma check_ffmpeg_trace (w : world) : snd (probe w) = [Run version_query].
Proof.
  rewrite check_ffmpeg_cases.
  destruct (spawn version_query w) as [[rc out err | e] w1]; [reflexivity|].
  destruct e; reflexivity.
Qed.

(** The converter, case by case. *)
Lemma convert_cases (input_file : string) (output_file : option string)
    (o : options) (w : world) :
  let out := resolve_output input_file output_file in
  let cmd := build_cmd float_str input_file out o in
  let intro := [Run version_query; Print (Msg_converting input_file out);
                Print (Msg_running cmd); Run cmd] in
  convert input_file output_file o w
  = match probe w with
    | (Raise e, w1, t1) => (Raise e, w1, t1)
    | (Ret false, w1, _) =>
        (Ret None, w1,
         Run version_query :: Print Msg_ffmpeg_not_found
           :: map Print installation_guidance)
    | (Ret true, w1, _) =>
        match stat_size input_file w1 with
        | Raise _ =>
            (Ret None, w1,
             [Run version_query; Print (Msg_input_not_found input_file)])
        | Ret _ =>
            match spawn cmd w1 with
            | (Launch_failed e, w2) =>
                (Ret None, w2, intro ++ [Print (Msg_error_running e)])
            | (Completed rc _ stderr, w2) =>
                if rc =? 0 then
                  match stat_size out w2 with
                  | Ret size =>
                      (Ret (Some out), w2,
                       intro ++ [Print Msg_conversion_successful;
                                 Print (Msg_output out); Print (Msg_size size)])
                  | Raise _ =>
                      (Ret None, w2, intro ++ [Print Msg_output_not_created])
                  end
                else
                  (Ret None, w2,
                   intro ++ [Print Msg_ffmpeg_error; Print (Msg_stderr stderr)])
            end
        end
    end.
Proof.
  intros out cmd intro. subst intro.
  pose proof (check_ffmpeg_trace w) as Ht.
  unfold convert_mkv_to_webp. unfold bind at 1.
  destruct (probe w) as [[[[|] | e] w1] t1]; cbn [snd] in Ht; subst t1;
    [| reflexivity | reflexivity].
  cbn [negb]. unfold bind at 1, path_exists at 1.
  destruct (stat_size input_file w1) as [n|e]; [|reflexivity].
  cbn [negb]. fold out. fold cmd.
  unfold try_except, bind, print, subprocess_run, path_exists, getsize, ret.
  destruct (spawn cmd w1) as [[rc so se | e] w2]; [|reflexivity].
  destruct (rc =? 0); [|reflexivity].
  destruct (stat_size out w2) eqn:E; unfold out in E |- *; rewrite ?E; reflexivity.
Qed.

(** C6. When the availability check answers [False] the converter
    returns no path, prints the installation guidance and starts no process
    besides the version query; when the check passes and the input does not
    exist it returns no path and again starts no other process. *)
Theorem no_launch_when_preconditions_fail (input_file : string)
    (output_file : option string) (o : options) (w w1 : world)
    (t1 : list event) (e : exn) :
  (probe w = (Ret false, w1, t1) ->
   exists t,
     convert input_file output_file o w = (Ret None, w1, t) /\
     launches t = [version_query] /\
     printed t = Msg_ffmpeg_not_found :: installation_guidance) /\
  (probe w = (Ret true, w1, t1) ->
   stat_size input_file w1 = Raise e ->
   exists t,
     convert input_file output_file o w = (Ret None, w1, t) /\
     launches t = [version_query] /\
     printed t = [Msg_input_not_found input_file]).
Proof.
  split.
  - intros Hp. rewrite convert_cases, Hp. eexists. repeat split.
  - intros Hp Hi. rewrite convert_cases, Hp, Hi. eexists. repeat split.
Qed.

(** C4. A conversion returns an output path exactly when the availability
    check passed, the input existed, the tool exited with status zero and
    the output file exists afterwards; when the tool exits with status zero
    and the output file does not exist, no path is returned and the
    "output not created" line is printed. *)
Theorem success_iff_exit_zero_and_output (input_file : string)
    (output_file : option string) (o : options) (w : world) :
  let out := resolve_output input_file output_file in
  let cmd := build_cmd float_str input_file out o in
  (forall p w' t,
     convert input_file output_file o w = (Ret (Some p), w', t) <->
     exists w1 t1 n stdout stderr size,
       probe w = (Ret true, w1, t1) /\
       stat_size input_file w1 = Ret n /\
       spawn cmd w1 = (Completed 0 stdout stderr, w') /\
       stat_size out w' = Ret size /\
       p = out /\
       t = [Run version_query; Print (Msg_converting input_file out);
            Print (Msg_running cmd); Run cmd;
            Print Msg_conversion_successful; Print (Msg_output out);
            Print (Msg_size size)]) /\
  (forall w1 t1 n stdout stderr w2 e,
     probe w = (Ret true, w1, t1) ->
     stat_size input_file w1 = Ret n ->
     spawn cmd w1 = (Completed 0 stdout stderr, w2) ->
     stat_size out w2 = Raise e ->
     convert input_file output_file o w
     = (Ret None, w2,
        [Run version_query; Print (Msg_converting input_file out);
         Print (Msg_running cmd); Run cmd; Print Msg_output_not_created])).
Proof.
  intros out cmd. split.
  - intros p w' t. rewrite convert_cases. fold out. fold cmd. split.
    + destruct (probe w) as [[[[|] | e] w1] t1]; try discriminate.
      destruct (stat_size input_file w1) as [n|e] eqn:Hi; try discriminate.
      destruct (spawn cmd w1) as [[rc so se | e] w2] eqn:Hs; try discriminate.
      destruct (rc =? 0) eqn:Hrc; try discriminate.
      destruct (stat_size out w2) as [size|e] eqn:Ho; try discriminate.
      intros [= <- <- <-]. apply Z.eqb_eq in Hrc. subst rc.
      exists w1, t1, n, so, se, size. repeat split; assumption.
    + intros (w1 & t1 & n & so & se & size & Hp & Hi & Hs & Ho & -> & ->).
      rewrite Hp, Hi, Hs. cbn [Z.eqb]. rewrite Ho. reflexivity.
  - intros w1 t1 n so se w2 e Hp Hi Hs Ho.
    rewrite convert_cases. fold out. fold cmd.
    rewrite Hp, Hi, Hs. cbn [Z.eqb]. rewrite Ho. reflexivity.
Qed.

Lemma resolve_output_nonempty (input_file : string) (output_file : option string) :
  truthy_str (Some (resolve_output input_file output_file)) = true.
Proof.
  unfold resolve_output.
  destruct output_file as [[|c s]|]; try reflexivity;
    destruct (fst (splitext input_file)); reflexivity.
Qed.

(** What one conversion adds to a trace when the availability check
    returns: no batch line, and one success line exactly when it
    succeeds. *)
Lemma convert_returns (input_file : string) (output_file : option string)
    (o : options) (w : world) (b : bool) :
  fst (fst (probe w)) = Ret b ->
  exists res w' t,
    convert input_file output_file o w = (Ret res, w', t) /\
    attempted t = [] /\ reports t = [] /\
    successes t = (if truthy_str res then 1 else 0) /\
    (b = false -> res = None).
Proof.
  intros Hb. rewrite convert_cases.
  destruct (probe w) as [[r w1] t1]. cbn [fst] in Hb. subst r.
  destruct b.
  - destruct (stat_size input_file w1); [|do 3 eexists; repeat split; discriminate].
    destruct (spawn _ w1) as [[rc so se | e] w2];
      [|do 3 eexists; repeat split; discriminate].
    destruct (rc =? 0); [|do 3 eexists; repeat split; discriminate].
    destruct (stat_size _ w2); [|do 3 eexists; repeat split; discriminate].
    do 3 eexists. split; [reflexivity|]. rewrite resolve_output_nonempty.
    repeat split. discriminate.
  - do 3 eexists. repeat split.
Qed.

Lemma attempted_app (t1 t2 : list event) :
  attempted (t1 ++ t2) = attempted t1 ++ attempted t2.
Proof.
  induction t1 as [|[[]|] t1 IH]; cbn [app attempted]; rewrite ?IH; reflexivity.
Qed.

Lemma reports_app (t1 t2 : list event) :
  reports (t1 ++ t2) = reports t1 ++ reports t2.
Proof.
  induction t1 as [|[[]|] t1 IH]; cbn [app reports]; rewrite ?IH; reflexivity.
Qed.

Lemma successes_app (t1 t2 : list event) :
  successes (t1 ++ t2) = successes t1 + successes t2.
Proof.
  induction t1 as [|[[]|] t1 IH]; cbn [app successes]; rewrite ?IH; lia.
Qed.

(** The loop visits every file when every availability check returns. *)
Lemma batch_loop_completes (input_dir output_dir : string) (o : options)
    (files : list string) :
  (forall w, exists b, fst (fst (probe w)) = Ret b) ->
  forall (success_count : Z) (w : world),
  exists w' t,
    batch_loop float_str world stat_size spawn input_dir output_dir o files
      success_count w
    = (Ret (success_count + successes t), w', t) /\
    attempted t = files /\ reports t = [] /\
    (tool_unavailable spawn -> successes t = 0).
Proof.
  intros Hprobe. induction files as [|f files IH]; intros c w.
  - exists w, []. cbn [batch_loop successes attempted reports].
    rewrite Z.add_0_r. repeat split.
  - cbn [batch_loop]. unfold bind at 1, print at 1. unfold bind at 1.
    destruct (Hprobe w) as [b Hb].
    destruct (convert_returns (path_join input_dir f)
                (Some (batch_output_path output_dir f)) o w b Hb)
      as (res & w1 & t1 & -> & Ha & Hr & Hs & Hnone).
    destruct (IH (if truthy_str res then c + 1 else c) w1)
      as (w2 & t2 & -> & Ha2 & Hr2 & Hs2).
    do 2 eexists. split; [|split; [|split]].
    + f_equal. f_equal. f_equal.
      cbn [app successes]. rewrite successes_app, Hs.
      destruct (truthy_str res); lia.
    + cbn [app attempted]. rewrite attempted_app, Ha, Ha2. reflexivity.
    + cbn [app reports]. rewrite reports_app, Hr, Hr2. reflexivity.
    + intros Hun. cbn [app successes]. rewrite successes_app, Hs, (Hs2 Hun).
      rewrite Hnone; [reflexivity|].
      specialize (Hun w). rewrite Hb in Hun. congruence.
Qed.

Lemma settled_probe_returns :
  probe_settles spawn -> forall w, exists b, fst (fst (probe w)) = Ret b.
Proof.
  intros Hs w. rewrite check_ffmpeg_cases.
  destruct (spawn version_query w) as [[rc so se | e] w1] eqn:E.
  - now exists (rc =? 0).
  - rewrite (Hs _ _ _ E). now exists false.
Qed.

Lemma unavailable_probe_returns :
  tool_unavailable spawn -> forall w, exists b, fst (fst (probe w)) = Ret b.
Proof. intros Hu w. exists false. apply Hu. Qed.

Variable isdir : string -> world -> bool.
Variable listdir : string -> world -> outcome (list string).
Variable makedirs : string -> world -> outcome unit * world.
Variable lower : string -> string.

Local Abbreviation batch :=
  (batch_convert float_str world stat_size isdir listdir makedirs spawn lower).

(** The batch, once the directory has been listed. *)
Lemma batch_convert_cases (input_dir : string) (output_dir : option string)
    (o : options) (w w1 : world) (names : list string) :
  let target := match output_dir with
                | Some (String _ _ as given) => given
                | _ => input_dir
                end in
  let files := select_mkv lower names in
  let total := Z.of_nat (List.length files) in
  isdir input_dir w = true ->
  makedirs target w = (Ret tt, w1) ->
  listdir input_dir w1 = Ret names ->
  files <> [] ->
  batch input_dir output_dir o w
  = match batch_loop float_str world stat_size spawn input_dir target o
            files 0 w1 with
    | (Ret k, w', t) =>
        (Ret tt, w', Print (Msg_found total) :: t ++ [Print (Msg_converted k total)])
    | (Raise e, w', t) => (Raise e, w', Print (Msg_found total) :: t)
    end.
Proof.
  intros target files total Hd Hm Hl Hf.
  unfold batch_convert, bind at 1, os_path_isdir at 1. rewrite Hd. cbn [negb].
  fold target. unfold bind at 1, os_makedirs at 1. rewrite Hm.
  unfold bind at 1, os_listdir at 1. rewrite Hl. fold files.
  subst total. clearbody files. destruct files as [|f files']; [congruence|].
  unfold bind, print.
  destruct (batch_loop _ _ _ _ _ _ _ _ _ _) as [[[k|e] w'] t]; reflexivity.
Qed.

(** What the batch does as long as the availability check returns.  On
    a directory with at least one matching file, when launching the version
    query raises nothing but [FileNotFoundError], the batch announces every
    matching file in order and ends with one report: the number of
    successful conversions out of the number of matching files.  When the
    tool is unavailable the report is 0 out of that number. *)
Theorem batch_reports_successes (input_dir : string)
    (output_dir : option string) (o : options) (w w1 : world)
    (names : list string) :
  let target := match output_dir with
                | Some (String _ _ as given) => given
                | _ => input_dir
                end in
  let files := select_mkv lower names in
  let total := Z.of_nat (List.length files) in
  isdir input_dir w = true ->
  makedirs target w = (Ret tt, w1) ->
  listdir input_dir w1 = Ret names ->
  files <> [] ->
  (probe_settles spawn ->
   exists w' t,
     batch input_dir output_dir o w = (Ret tt, w', t) /\
     attempted t = files /\
     reports t = [(successes t, total)]) /\
  (tool_unavailable spawn ->
   exists w' t,
     batch input_dir output_dir o w = (Ret tt, w', t) /\
     attempted t = files /\
     reports t = [(0, total)]).
Proof.
  intros target files total Hd Hm Hl Hf.
  pose proof (batch_convert_cases input_dir output_dir o w w1 names Hd Hm Hl Hf)
    as Hb. fold target files total in Hb.
  split.
  - intros Hs.
    destruct (batch_loop_completes input_dir target o files
                (settled_probe_returns Hs) 0 w1) as (w' & t & Hloop & Ha & Hr & _).
    rewrite Hloop in Hb. do 2 eexists. split; [exact Hb|].
    cbn [attempted reports successes].
    rewrite attempted_app, reports_app, successes_app, Ha, Hr.
    cbn [attempted reports successes app]. rewrite app_nil_r, Z.add_0_r.
    split; reflexivity.
  - intros Hu.
    destruct (batch_loop_completes input_dir target o files
                (unavailable_probe_returns Hu) 0 w1) as (w' & t & Hloop & Ha & Hr & Hz).
    rewrite Hloop in Hb. do 2 eexists. split; [exact Hb|].
    cbn [attempted reports].
    rewrite attempted_app, reports_app, Ha, Hr, (Hz Hu).
    cbn [attempted reports app]. rewrite app_nil_r.
    split; reflexivity.
Qed.

End ConverterFacts.

(** ** The probe *)

Lemma has_char_app (c : ascii) (a b : string) :
  has_char c (a ++ b) = has_char c a || has_char c b.
Proof.
  induction a as [|x a IH]; [reflexivity|].
  cbn [String.append has_char]. rewrite IH. now rewrite orb_assoc.
Qed.

Lemma digits_no_slash (d : Decimal.uint) :
  has_char "/" (NilEmpty.string_of_uint d) = false.
Proof. induction d; cbn; auto. Qed.

Lemma numeral_no_slash (d : Decimal.signed_int) :
  has_char "/" (NilZero.string_of_int d) = false.
Proof.
  destruct d as [d | d]; cbn [NilZero.string_of_int has_char];
    destruct d; cbn; auto using digits_no_slash.
Qed.

Lemma str_int_no_slash (z : Z) : has_char "/" (str_int z) = false.
Proof. apply numeral_no_slash. Qed.

Lemma to_int_not_nil (z : Z) :
  Z.to_int z <> Decimal.Pos Decimal.Nil /\ Z.to_int z <> Decimal.Neg Decimal.Nil.
Proof.
  destruct z as [|p|p]; cbn; split; try discriminate; intros [= H];
    exact (DecimalPos.Unsigned.to_uint_nonnil p H).
Qed.

Lemma int_of_string_str_int (z : Z) :
  NilZero.int_of_string (str_int z) = Some (Z.to_int z).
Proof.
  destruct (to_int_not_nil z) as [Hp Hn]. now apply NilZero.isi.
Qed.

Lemma int_literal_str_int (z : Z) :
  (literal_digits (str_int z) <= max_str_digits)%nat ->
  int_literal (str_int z) = Some z.
Proof.
  intros H. unfold int_literal.
  rewrite int_of_string_str_int, DecimalZ.of_to, String.eqb_refl.
  apply Nat.leb_le in H. now rewrite H.
Qed.

Lemma int_literal_no_slash (s : string) (z : Z) :
  int_literal s = Some z -> has_char "/" s = false.
Proof.
  unfold int_literal. destruct (NilZero.int_of_string s) as [d|] eqn:E; [|discriminate].
  apply NilZero.sis in E. subst s. intros _. apply numeral_no_slash.
Qed.

Lemma split_slash_none (s : string) :
  has_char "/" s = false -> split_slash s = None.
Proof.
  induction s as [|x s IH]; [reflexivity|].
  cbn [has_char split_slash]. intros H.
  apply orb_false_iff in H as [Hx Hs]. now rewrite Hx, (IH Hs).
Qed.

Lemma split_slash_app (a b : string) :
  has_char "/" a = false -> split_slash (a ++ String "/" b) = Some (a, b).
Proof.
  induction a as [|x a IH]; [reflexivity|].
  cbn [has_char String.append split_slash]. intros H.
  apply orb_false_iff in H as [Hx Ha]. now rewrite Hx, (IH Ha).
Qed.

Section ProbeFacts.

Variable world : Type.
Variable round_quotient : Z -> Z -> option spec_float.
Variable eval_other : string -> ME world pyobj.

Local Abbreviation eval := (py_eval world round_quotient eval_other).
Local Abbreviation quotient := (int_truediv round_quotient).
Local Abbreviation rate := (frame_rate world round_quotient eval_other).

(** C3, amended. The frame rate of a stream is what the evaluation of its
    [r_frame_rate] string as an expression gives.
    On ["num/den"], with both integers written as decimal numerals of no
    more digits than the limit, the evaluation changes nothing in the
    world and yields the quotient of the two integers (an exception when
    [den] is zero or the quotient is no [float]), which is what the
    integer-pair parse of the string gives.  A numeral alone is no integer
    pair, and the parse gives nothing for it; yet it is evaluated, to the
    integer it denotes. *)
Theorem frame_rate_of_integer_pair (num den : Z) (w : world) :
  (literal_digits (str_int num) <= max_str_digits)%nat ->
  (literal_digits (str_int den) <= max_str_digits)%nat ->
  let s := (str_int num ++ "/" ++ str_int den)%string in
  let r := match quotient num den with
           | Ret f => Ret (ObjFloat f)
           | Raise e => Raise e
           end in
  (forall members text,
     assoc "r_frame_rate" members = Some (JStr text) ->
     rate (JDict members) w = eval text w) /\
  (eval s w = (r, w, []) /\
   float_value r = parse_frame_rate quotient s) /\
  (eval (str_int num) w = (Ret (ObjInt num), w, []) /\
   parse_frame_rate quotient (str_int num) = None).
Proof.
  intros Hnum Hden s r. subst s r.
  change ("/" ++ str_int den)%string with (String "/" (str_int den)).
  pose proof (split_slash_app (str_int num) (str_int den) (str_int_no_slash num))
    as Hsplit.
  split; [|split; split].
  - intros members text H. unfold frame_rate, bind_e, plain, lift.
    cbn [dict_get]. rewrite H.
    now destruct (eval text w) as [[c w'] t].
  - unfold py_eval, eval_arith.
    destruct (int_literal (str_int num ++ String "/" (str_int den)))
      as [z|] eqn:E.
    + apply int_literal_no_slash in E. rewrite has_char_app in E.
      cbn in E. rewrite orb_true_r in E. discriminate.
    + rewrite Hsplit, (int_literal_str_int num Hnum),
        (int_literal_str_int den Hden).
      destruct (quotient num den); reflexivity.
  - unfold parse_frame_rate.
    rewrite Hsplit, !int_of_string_str_int, !DecimalZ.of_to.
    destruct (quotient num den); reflexivity.
  - unfold py_eval, eval_arith.
    now rewrite (int_literal_str_int num Hnum).
  - unfold parse_frame_rate.
    now rewrite (split_slash_none _ (str_int_no_slash num)).
Qed.

End ProbeFacts.

(** ** The command line *)

Section MainFacts.

Variable float_str : spec_float -> string.
Variable world : Type.
Variable stat_size : string -> world -> outcome Z.
Variable isfile : string -> world -> bool.
Variable isdir : string -> world -> bool.
Variable listdir : string -> world -> outcome (list string).
Variable makedirs : string -> world -> outcome unit * world.
Variable spawn : list string -> world -> run_result * world.
Variable json_loads : string -> outcome json.
Variable py_float : json -> outcome spec_float.
Variable round_quotient : Z -> Z -> option spec_float.
Variable lower : string -> string.
Variable eval_other : string -> ME world pyobj.

Local Abbreviation run :=
  (script float_str world stat_size isfile isdir listdir makedirs spawn
     json_loads py_float round_quotient lower eval_other).

(** C9, amended. In info-only mode, when the input is not an existing
    file the script prints the usage error, starts no process, and ends
    with exit status 0. *)
Theorem info_needs_a_file (a : args) (w : world) :
  arg_info a = true ->
  isfile (arg_input a) w = false ->
  run (Parsed a) w
  = (Ret 0, w, [Print Msg_banner; Print Msg_rule; Print Msg_info_needs_file]).
Proof.
  intros Hinfo Hfile.
  unfold script, main, bind_e, plain, bind, print, os_path_isfile, ret.
  rewrite Hinfo. cbv beta iota. rewrite Hfile. reflexivity.
Qed.

End MainFacts.

(** ** The properties on the sample world *)

(** Against C3 as it is stated: the string ["30"] is not an integer pair,
    and [eval] returns the integer 30 for it instead of yielding no
    value. *)
Lemma eval_accepts_a_plain_integer :
  ~ (forall (s : string) (w : Sample.disk),
       parse_frame_rate (int_truediv Sample.round_quotient) s = None ->
       exists e, fst (fst (Sample.run_eval s w)) = Raise e).
Proof.
  intros H.
  destruct (H "30" Sample.videos eq_refl) as [e He].
  vm_compute in He. discriminate.
Qed.

(** Against C9 as it is stated: [--info] on a directory ends with exit
    status 0. *)
Lemma info_on_directory_exits_zero :
  ~ (forall (a : args) (w : Sample.disk),
       arg_info a = true ->
       Sample.isfile (arg_input a) w = false ->
       exists status,
         fst (fst (Sample.run_script Sample.Writing (Parsed a) w)) = Ret status
         /\ status <> 0).
Proof.
  intros H.
  destruct (H Sample.info_on_directory Sample.videos eq_refl eq_refl)
    as (status & Hs & Hnz).
  vm_compute in Hs. congruence.
Qed.

(** C7. The failure of one item can end the batch: with an [ffmpeg] that
    cannot be executed, the availability check of the first item raises
    [PermissionError], which neither [check_ffmpeg] nor the converter nor
    the loop catches.  The batch over the two videos of the sample
    directory ends there: the second video is never announced and no
    report is printed; the script prints the exception and ends. *)
Lemma batch_aborts_when_probe_raises :
  Sample.run_batch Sample.Not_executable "videos" None default_options
    Sample.videos
  = (Raise PermissionError, Sample.videos,
     [Print (Msg_found 2); Print (Msg_converting_item "a.mkv");
      Run version_query])
  /\ Sample.run_script Sample.Not_executable
       (Parsed Sample.batch_on_directory) Sample.videos
     = (Ret 0, Sample.videos,
        [Print Msg_banner; Print Msg_rule; Print (Msg_found 2);
         Print (Msg_converting_item "a.mkv"); Run version_query;
         Print (Msg_error PermissionError)])
  /\ ~ (forall (w : Sample.disk) (names : list string),
          Sample.listdir "videos" w = Ret names ->
          attempted (snd (Sample.run_batch Sample.Not_executable "videos" None
                            default_options w))
          = select_mkv Sample.lower names).
Proof.
  split; [reflexivity | split; [reflexivity|]].
  intros H. specialize (H Sample.videos _ eq_refl).
  vm_compute in H. discriminate.
Qed.

(** The order of the arguments, on the sample options. *)
Lemma build_cmd_order_witness :
  positive_when_given Sample.trimmed /\
  build_cmd Sample.float_str "clip.mkv" "clip.webp" Sample.trimmed
  = "ffmpeg" :: spec_arguments Sample.float_str "clip.mkv" "clip.webp"
                  Sample.trimmed.
Proof.
  assert (H : positive_when_given Sample.trimmed).
  { repeat split; intros x [= <-]; reflexivity. }
  split; [exact H | exact (build_cmd_order _ _ _ _ H)].
Defined.


(** A duration of [-0.0] is no duration. *)
Lemma zero_duration_is_unset_witness :
  is_zero (Float (S754_zero true)) /\
  build_cmd Sample.float_str "clip.mkv" "clip.webp"
    (with_duration (Some (Float (S754_zero true))) default_options)
  = build_cmd Sample.float_str "clip.mkv" "clip.webp"
      (with_duration None default_options).
Proof.
  assert (H : is_zero (Float (S754_zero true))).
  { right. exists true. reflexivity. }
  split; [exact H|].
  exact (proj1 (zero_duration_is_unset Sample.float_str "clip.mkv" "clip.webp"
                  default_options _ H)).
Defined.

(** The derived output, on one item of the sample directory. *)
Lemma derived_output_rule_witness :
  has_char "/" "a.mkv" = false /\
  batch_output_path "videos" "a.mkv"
  = resolve_output (path_join "videos" "a.mkv") None.
Proof.
  split; [reflexivity|].
  exact (proj2 (proj2 (proj2 derived_output_rule)) "videos" "a.mkv" eq_refl).
Defined.

(** A tool that exits with status zero and writes nothing: the
    conversion fails. *)
Lemma success_iff_exit_zero_and_output_witness :
  Sample.stat_size "videos/a_algorithm_viz.webp" Sample.videos
  = Raise FileNotFoundError /\
  Sample.run_convert Sample.Silent "videos/a.mkv" None default_options
    Sample.videos
  = (Ret None, Sample.videos,
     [Run version_query;
      Print (Msg_converting "videos/a.mkv" "videos/a_algorithm_viz.webp");
      Print (Msg_running
               (build_cmd Sample.float_str "videos/a.mkv"
                  "videos/a_algorithm_viz.webp" default_options));
      Run (build_cmd Sample.float_str "videos/a.mkv"
             "videos/a_algorithm_viz.webp" default_options);
      Print Msg_output_not_created]).
Proof.
  split; [reflexivity|].
  exact (proj2 (success_iff_exit_zero_and_output Sample.float_str Sample.disk
                  Sample.stat_size (Sample.spawn Sample.Silent)
                  "videos/a.mkv" None default_options Sample.videos)
           Sample.videos [Run version_query] 5000 "" "" Sample.videos
           FileNotFoundError eq_refl eq_refl eq_refl eq_refl).
Defined.

(** No tool installed: the converter starts nothing but the version
    query. *)
Lemma no_launch_when_preconditions_fail_witness :
  check_ffmpeg Sample.disk (Sample.spawn Sample.Absent) Sample.videos
  = (Ret false, Sample.videos, [Run version_query]) /\
  exists t,
    Sample.run_convert Sample.Absent "videos/a.mkv" None default_options
      Sample.videos = (Ret None, Sample.videos, t) /\
    launches t = [version_query] /\
    printed t = Msg_ffmpeg_not_found :: installation_guidance.
Proof.
  split; [reflexivity|].
  exact (proj1 (no_launch_when_preconditions_fail Sample.float_str Sample.disk
                  Sample.stat_size (Sample.spawn Sample.Absent)
                  "videos/a.mkv" None default_options Sample.videos
                  Sample.videos [Run version_query] FileNotFoundError)
           eq_refl).
Defined.

Lemma sample_tool_absent : tool_unavailable (Sample.spawn Sample.Absent).
Proof. intros w. reflexivity. Defined.

(** The sample directory with no tool installed: 0 out of 2. *)
Lemma batch_reports_successes_witness :
  tool_unavailable (Sample.spawn Sample.Absent) /\
  exists w' t,
    Sample.run_batch Sample.Absent "videos" None default_options Sample.videos
    = (Ret tt, w', t) /\
    attempted t = ["a.mkv"; "b.mkv"] /\
    reports t = [(0, 2)].
Proof.
  split; [exact sample_tool_absent|].
  refine (proj2 (batch_reports_successes Sample.float_str Sample.disk
                   Sample.stat_size (Sample.spawn Sample.Absent) Sample.isdir
                   Sample.listdir Sample.makedirs Sample.lower
                   "videos" None default_options Sample.videos Sample.videos
                   ["a.mkv"; "notes.txt"; "b.mkv"]
                   eq_refl eq_refl eq_refl _) sample_tool_absent).
  discriminate.
Defined.

(** [--info] on the sample directory. *)
Lemma info_needs_a_file_witness :
  arg_info Sample.info_on_directory = true /\
  Sample.isfile (arg_input Sample.info_on_directory) Sample.videos = false /\
  Sample.run_script Sample.Writing (Parsed Sample.info_on_directory)
    Sample.videos
  = (Ret 0, Sample.videos,
     [Print Msg_banner; Print Msg_rule; Print Msg_info_needs_file]).
Proof.
  split; [reflexivity | split; [reflexivity|]].
  exact (info_needs_a_file Sample.float_str Sample.disk Sample.stat_size
           Sample.isfile Sample.isdir Sample.listdir Sample.makedirs
           (Sample.spawn Sample.Writing) Sample.json_loads Sample.py_float
           Sample.round_quotient Sample.lower Sample.eval_other
           Sample.info_on_directory Sample.videos eq_refl eq_refl).
Defined.

(** ** More of the command builder *)

Section BuilderMore.

Variable float_str : spec_float -> string.

Lemma length_flatten (ps : list (string * string)) :
  List.length (flatten ps) = (2 * List.length ps)%nat.
Proof.
  induction ps as [|[f v] ps IH]; [reflexivity|].
  rewrite flatten_cons. cbn [List.length]. rewrite IH. lia.
Qed.

(** X1. Whatever the options, the command is the program name followed
    by flag/value pairs.  Its flags come in the one order of lines 68-109,
    each at most once, and [-i], [-r] and [-y] are always among them. *)
Theorem flags_in_fixed_order (input_file output_file : string) (o : options) :
  let cmd := build_cmd float_str input_file output_file o in
  hd "" cmd = "ffmpeg" /\
  List.length cmd = (1 + 2 * List.length (flags_of cmd))%nat /\
  subsequence (flags_of cmd) flag_order = true /\
  subsequence ["-i"; "-r"; "-y"] (flags_of cmd) = true.
Proof.
  intros cmd. subst cmd. rewrite build_cmd_pairs, flags_of_flatten.
  split; [reflexivity|]. split.
  { cbn [List.length]. rewrite length_flatten, length_map. reflexivity. }
  unfold appended.
  destruct (gt0 (start_time o)), (truthy_num (duration o)),
    (scale_filters o), (lossless o), (loop o), (verbose o);
    split; reflexivity.
Qed.

Lemma pair_has_flag_value (flag value : string) (ps : list (string * string)) :
  In (flag, value) ps ->
  forall head, has_flag_value flag value (head :: flatten ps) = true.
Proof.
  unfold has_flag_value.
  induction ps as [|[f v] ps IH]; intros Hin head; [contradiction|].
  rewrite flatten_cons, !flag_values_step, !existsb_app.
  destruct Hin as [[= -> ->] | Hin].
  - rewrite String.eqb_refl. cbn [existsb]. rewrite String.eqb_refl.
    cbn [orb]. now rewrite orb_true_r.
  - rewrite (IH Hin v). now rewrite !orb_true_r.
Qed.

(** X2. The input path follows [-i], the frame rate follows [-r] and the
    output path follows [-y] in every command: an existing output is
    always overwritten.  [-loop 0] is there exactly when [loop] is set and
    [-loglevel error] exactly when [verbose] is not. *)
Theorem overwrite_loop_and_quiet (input_file output_file : string)
    (o : options) :
  let cmd := build_cmd float_str input_file output_file o in
  has_flag_value "-i" input_file cmd = true /\
  has_flag_value "-r" (str_int (fps o)) cmd = true /\
  has_flag_value "-y" output_file cmd = true /\
  has_flag_value "-loop" "0" cmd = loop o /\
  has_flag_value "-loglevel" "error" cmd = negb (verbose o).
Proof.
  intros cmd. subst cmd. rewrite build_cmd_pairs.
  repeat split.
  - apply pair_has_flag_value. unfold appended. cbn. auto.
  - apply pair_has_flag_value. unfold appended.
    rewrite !in_app_iff. right. right. right. left. now left.
  - apply pair_has_flag_value. unfold appended.
    rewrite !in_app_iff. do 7 right. left. now left.
  - rewrite has_flag_value_flatten; unfold appended;
      destruct (gt0 (start_time o)), (truthy_num (duration o)),
        (scale_filters o), (lossless o), (loop o), (verbose o); reflexivity.
  - rewrite has_flag_value_flatten; unfold appended;
      destruct (gt0 (start_time o)), (truthy_num (duration o)),
        (scale_filters o), (lossless o), (loop o), (verbose o); reflexivity.
Qed.

(** X3. A width or a height of zero passes for one that was not given:
    lines 80-84 test the truth of the value, not its presence. *)
Theorem zero_size_is_not_given (input_file output_file : string) (o : options) :
  build_cmd float_str input_file output_file (with_width (Some 0) o)
  = build_cmd float_str input_file output_file (with_width None o) /\
  build_cmd float_str input_file output_file (with_height (Some 0) o)
  = build_cmd float_str input_file output_file (with_height None o).
Proof.
  split; [reflexivity|].
  unfold build_cmd, scale_filters.
  cbn [with_height start_time duration fps width height quality lossless loop
    verbose truthy_int Z.eqb negb].
  destruct (truthy_int (width o)); reflexivity.
Qed.

(** X4. A start time that is not greater than zero (zero, a negative
    number, [nan]) gives the command of start time 0, with no [-ss]. *)
Theorem seek_needs_positive_start (input_file output_file : string)
    (o : options) (s : number) :
  gt0 s = false ->
  build_cmd float_str input_file output_file (with_start_time s o)
  = build_cmd float_str input_file output_file (with_start_time (Int 0) o)
  /\ ~ In "-ss" (flags_of (build_cmd float_str input_file output_file
                             (with_start_time s o))).
Proof.
  intros Hs. split.
  - unfold build_cmd. cbn [with_start_time start_time duration]. rewrite Hs.
    reflexivity.
  - rewrite build_cmd_pairs, flags_of_flatten. unfold appended, scale_filters.
    cbn [with_start_time start_time duration fps width height quality lossless
      loop verbose]. rewrite Hs.
    destruct (truthy_num (duration o)),
      (truthy_int (width o) && truthy_int (height o)),
      (truthy_int (width o)), (truthy_int (height o)),
      (lossless o), (loop o), (verbose o); cbn; intuition discriminate.
Qed.

End BuilderMore.

(** ** More of the derived output *)

Section RfindMore.

Variable c : ascii.

Lemma rfind_cons (a : ascii) (s : string) :
  rfind (String a s) c
  = if rfind s c <? 0 then (if Ascii.eqb a c then 0 else -1)
    else 1 + rfind s c.
Proof.
  unfold rfind at 1. cbn [rfind_from]. rewrite rfind_from_shift.
  destruct (rfind s c <? 0); [reflexivity | lia].
Qed.

Lemma rfind_present (s : string) : has_char c s = true -> 0 <= rfind s c.
Proof.
  induction s as [|a s IH]; [discriminate|].
  cbn [has_char]. rewrite rfind_cons. intros H.
  destruct (rfind s c <? 0) eqn:E.
  - destruct (Ascii.eqb a c); [lia|]. cbn [orb] in H.
    specialize (IH H). apply Z.ltb_lt in E. lia.
  - apply Z.ltb_ge in E. lia.
Qed.

Lemma rfind_negative (s : string) : rfind s c < 0 -> has_char c s = false.
Proof.
  intros H. destruct (has_char c s) eqn:E; [|reflexivity].
  apply rfind_present in E. lia.
Qed.

(** Where [rfind] points there is the character, and none after it. *)
Lemma rfind_split (s : string) :
  0 <= rfind s c ->
  exists a b, s = (a ++ String c b)%string /\
              Z.of_nat (String.length a) = rfind s c /\
              has_char c b = false.
Proof.
  induction s as [|x s IH]; [cbn; lia|].
  rewrite rfind_cons. destruct (rfind s c <? 0) eqn:E.
  - destruct (Ascii.eqb_spec x c) as [-> | Hx]; [|lia]. intros _.
    exists ""%string, s. repeat split. apply rfind_negative.
    now apply Z.ltb_lt.
  - apply Z.ltb_ge in E. intros _.
    destruct (IH E) as (a & b & -> & Hlen & Hb).
    exists (String x a), b. repeat split; [|assumption].
    cbn [String.length]. rewrite rfind_app in Hlen |- *.
    lia.
Qed.

End RfindMore.

Lemma substring_all (s : string) : substring 0 (String.length s) s = s.
Proof. induction s as [|x s IH]; [reflexivity | cbn; now rewrite IH]. Qed.

Lemma substring_none (s : string) : substring 0 0 s = ""%string.
Proof. now destruct s. Qed.

Lemma append_empty (s : string) : (s ++ "")%string = s.
Proof. induction s as [|x s IH]; [reflexivity | cbn; now rewrite IH]. Qed.

Lemma slices_of_append (a b : string) :
  slice_to (a ++ b) (Z.of_nat (String.length a)) = a /\
  slice_from (a ++ b) (Z.of_nat (String.length a)) = b.
Proof.
  unfold slice_to, slice_from. rewrite Nat2Z.id. split.
  - rewrite <- (Nat.add_0_r (String.length a)), substring_app_take,
      substring_none. apply append_empty.
  - rewrite length_app.
    replace (String.length a + String.length b - String.length a)%nat
      with (String.length b) by lia.
    rewrite <- (Nat.add_0_r (String.length a)) at 1.
    rewrite substring_app_skip. apply substring_all.
Qed.

Lemma append_inv_head (a b d : string) :
  (a ++ b)%string = (a ++ d)%string -> b = d.
Proof. induction a as [|x a IH]; [auto|]. cbn. intros [= H]. auto. Qed.

(** The two parts of [splitext] make up the path, and the extension is
    empty or a dot followed by neither a dot nor a separator. *)
Lemma splitext_parts (p : string) :
  (fst (splitext p) ++ snd (splitext p))%string = p /\
  (snd (splitext p) = ""%string \/
   exists e, snd (splitext p) = String "." e /\
             has_char "." e = false /\ has_char "/" e = false).
Proof.
  unfold splitext.
  destruct (rfind p "." >? rfind p "/") eqn:Hgt;
    [|cbn [andb fst snd]; split; [apply append_empty | now left]].
  destruct (skip_leading_dots _ _ _);
    [|cbn [andb fst snd]; split; [apply append_empty | now left]].
  cbn [andb fst snd].
  rewrite Z.gtb_ltb in Hgt. apply Z.ltb_lt in Hgt.
  pose proof (rfind_bounds "/" p) as Hsep.
  destruct (rfind_split "." p ltac:(lia)) as (a & b & Hp & Hlen & Hb).
  rewrite <- Hlen in *. clear Hsep. subst p.
  destruct (slices_of_append a (String "." b)) as [-> ->].
  split; [reflexivity|]. right. exists b. repeat split; [assumption|].
  rewrite rfind_app in Hgt.
  destruct (rfind (String "." b) "/" <? 0) eqn:E.
  - apply Z.ltb_lt, rfind_negative in E. cbn [has_char] in E.
    now apply orb_false_iff in E.
  - apply Z.ltb_ge in E. lia.
Qed.

(** X5. The output path derived at lines 58-60 is never the input path
    itself, so a conversion with no output given does not overwrite its
    input.  It is a stem of the input path, followed by the suffix and the
    target extension, and what it drops from the input holds no directory
    separator.  An empty output string counts as no output. *)
Theorem derived_output_is_fresh (input_file : string) :
  resolve_output input_file None <> input_file /\
  resolve_output input_file (Some ""%string) = resolve_output input_file None /\
  exists stem extension,
    input_file = (stem ++ extension)%string /\
    resolve_output input_file None = (stem ++ "_algorithm_viz.webp")%string /\
    has_char "/" extension = false.
Proof.
  destruct (splitext_parts input_file) as [Hp Hext].
  split; [|split; [reflexivity|]].
  - unfold resolve_output. intros H.
    rewrite <- Hp in H at 2. apply append_inv_head in H.
    destruct Hext as [E | (e & E & _)]; rewrite E in H; discriminate.
  - exists (fst (splitext input_file)), (snd (splitext input_file)).
    split; [now rewrite Hp | split; [reflexivity|]].
    destruct Hext as [E | (e & E & _ & Hs)]; rewrite E; [reflexivity|].
    exact Hs.
Qed.

(** X6. A file name that is only a leading dot and an extension, such as
    [.mkv], has no extension to strip: the derived output keeps the whole
    name. *)
Theorem hidden_file_keeps_its_name (name : string) :
  has_char "." name = false ->
  has_char "/" name = false ->
  resolve_output (String "." name) None
  = (String "." name ++ "_algorithm_viz.webp")%string.
Proof.
  intros Hdot Hsep. unfold resolve_output, splitext.
  rewrite !rfind_cons, (rfind_absent "." name Hdot),
    (rfind_absent "/" name Hsep).
  reflexivity.
Qed.

(** ** More of the converter *)

Lemma launches_app (t1 t2 : list event) :
  launches (t1 ++ t2) = launches t1 ++ launches t2.
Proof.
  induction t1 as [|[m|argv] t1 IH]; cbn [app launches]; rewrite ?IH; reflexivity.
Qed.

Section ConverterMore.

Variable float_str : spec_float -> string.
Variable world : Type.
Variable stat_size : string -> world -> outcome Z.
Variable spawn : list string -> world -> run_result * world.

Local Abbreviation convert := (convert_mkv_to_webp float_str world stat_size spawn).
Local Abbreviation probe := (check_ffmpeg world spawn).

(** X7. The availability check runs the version query once and answers
    with its exit status: [True] exactly when it is zero.  A launch that
    raises [FileNotFoundError] makes it answer [False]; any other
    exception of the launch leaves the function. *)
Theorem check_ffmpeg_answer (w w1 : world) :
  (forall rc stdout stderr,
     spawn version_query w = (Completed rc stdout stderr, w1) ->
     probe w = (Ret (rc =? 0), w1, [Run version_query])) /\
  (spawn version_query w = (Launch_failed FileNotFoundError, w1) ->
   probe w = (Ret false, w1, [Run version_query])) /\
  (forall e,
     spawn version_query w = (Launch_failed e, w1) ->
     e <> FileNotFoundError ->
     probe w = (Raise e, w1, [Run version_query])).
Proof.
  repeat split.
  - intros rc so se H. now rewrite check_ffmpeg_cases, H.
  - intros H. now rewrite check_ffmpeg_cases, H.
  - intros e H He. rewrite check_ffmpeg_cases, H. destruct e; congruence.
Qed.

(** X8. When the tool is available and the input exists, an exception of
    the conversion launch does not leave the converter: it prints the
    exception and returns [None], in the world the launch left. *)
Theorem launch_failure_is_caught (input_file : string)
    (output_file : option string) (o : options) (w w1 w2 : world)
    (t1 : list event) (n : Z) (e : exn) :
  let out := resolve_output input_file output_file in
  let cmd := build_cmd float_str input_file out o in
  probe w = (Ret true, w1, t1) ->
  stat_size input_file w1 = Ret n ->
  spawn cmd w1 = (Launch_failed e, w2) ->
  convert input_file output_file o w
  = (Ret None, w2,
     [Run version_query; Print (Msg_converting input_file out);
      Print (Msg_running cmd); Run cmd; Print (Msg_error_running e)]).
Proof.
  intros out cmd Hp Hi Hs. rewrite convert_cases. fold out. fold cmd.
  now rewrite Hp, Hi, Hs.
Qed.

(** X9. A conversion that exits with a non-zero status is a failure:
    the converter prints the error line and then the captured standard
    error, and returns [None]; the output path is not looked at. *)
Theorem nonzero_exit_is_a_failure (input_file : string)
    (output_file : option string) (o : options) (w w1 w2 : world)
    (t1 : list event) (n rc : Z) (stdout stderr : string) :
  let out := resolve_output input_file output_file in
  let cmd := build_cmd float_str input_file out o in
  probe w = (Ret true, w1, t1) ->
  stat_size input_file w1 = Ret n ->
  spawn cmd w1 = (Completed rc stdout stderr, w2) ->
  rc <> 0 ->
  convert input_file output_file o w
  = (Ret None, w2,
     [Run version_query; Print (Msg_converting input_file out);
      Print (Msg_running cmd); Run cmd; Print Msg_ffmpeg_error;
      Print (Msg_stderr stderr)]).
Proof.
  intros out cmd Hp Hi Hs Hrc. rewrite convert_cases. fold out. fold cmd.
  rewrite Hp, Hi, Hs. apply Z.eqb_neq in Hrc. now rewrite Hrc.
Qed.

(** X10. The converter raises exactly when its availability check
    raises, and then the same exception: everything after the check is
    either caught or cannot raise. *)
Theorem converter_raises_with_the_probe (input_file : string)
    (output_file : option string) (o : options) (w : world) (e : exn) :
  fst (fst (convert input_file output_file o w)) = Raise e <->
  fst (fst (probe w)) = Raise e.
Proof.
  rewrite convert_cases.
  destruct (probe w) as [[[[|] | e'] w1] t1]; cbn [fst];
    [| |split; intros [= ->]; reflexivity].
  - destruct (stat_size input_file w1) as [n|e1]; [|cbn; split; discriminate].
    destruct (spawn _ w1) as [[rc so se | e2] w2]; [|cbn; split; discriminate].
    destruct (rc =? 0); [|cbn; split; discriminate].
    destruct (stat_size _ w2); cbn; split; discriminate.
  - split; discriminate.
Qed.

(** X11. A conversion starts the version query and at most one more
    process, the built command; it starts the command exactly when the
    check answers [True] and the input path exists. *)
Theorem converter_launches (input_file : string)
    (output_file : option string) (o : options) (w : world) :
  let cmd := build_cmd float_str input_file
               (resolve_output input_file output_file) o in
  let t := snd (convert input_file output_file o w) in
  (launches t = [version_query] \/ launches t = [version_query; cmd]) /\
  (launches t = [version_query; cmd] <->
   exists w1 t1 n, probe w = (Ret true, w1, t1) /\
                   stat_size input_file w1 = Ret n).
Proof.
  intros cmd t. subst t. rewrite convert_cases. fold cmd.
  pose proof (check_ffmpeg_trace world spawn w) as Ht.
  destruct (probe w) as [[[[|] | e'] w1] t1]; cbn [snd] in Ht; subst t1.
  - destruct (stat_size input_file w1) as [n|e1] eqn:Hi.
    + destruct (spawn cmd w1) as [[rc so se | e2] w2];
        [destruct (rc =? 0); [destruct (stat_size _ w2)|]|];
        cbn [snd launches app];
        (split; [now right|]; split; [|reflexivity]; intros _;
         now exists w1, [Run version_query], n).
    + cbn. split; [now left|]. split; [discriminate|].
      intros (w1' & t1' & n & [= <- <-] & Hn). congruence.
  - cbn. split; [now left|]. split; [discriminate|].
    intros (w1' & t1' & n & [= ] & Hn).
  - cbn. split; [now left|]. split; [discriminate|].
    intros (w1' & t1' & n & [= ] & Hn).
Qed.

End ConverterMore.

(** ** More of the batch *)

Section BatchMore.

Variable float_str : spec_float -> string.
Variable world : Type.
Variable stat_size : string -> world -> outcome Z.
Variable isdir : string -> world -> bool.
Variable listdir : string -> world -> outcome (list string).
Variable makedirs : string -> world -> outcome unit * world.
Variable spawn : list string -> world -> run_result * world.
Variable lower : string -> string.

Local Abbreviation convert := (convert_mkv_to_webp float_str world stat_size spawn).
Local Abbreviation probe := (check_ffmpeg world spawn).
Local Abbreviation loop_over :=
  (batch_loop float_str world stat_size spawn).
Local Abbreviation batch :=
  (batch_convert float_str world stat_size isdir listdir makedirs spawn lower).

(** What any conversion, returning or not, leaves in the trace. *)
Lemma convert_trace (input_file : string) (output_file : option string)
    (o : options) (w w' : world) (r : outcome (option string))
    (t : list event) :
  convert input_file output_file o w = (r, w', t) ->
  attempted t = [] /\ reports t = [] /\
  forallb is_ffmpeg (launches t) = true /\
  successes t = (if match r with Ret x => truthy_str x | Raise _ => false end
                 then 1 else 0).
Proof.
  rewrite convert_cases.
  pose proof (check_ffmpeg_trace world spawn w) as Ht.
  pose proof (resolve_output_nonempty input_file output_file) as Hne.
  pose proof (build_cmd_pairs float_str input_file
                (resolve_output input_file output_file) o) as Hcmd.
  destruct (probe w) as [[[[|] | e'] w1] t1]; cbn [snd] in Ht; subst t1;
    [| intros [= <- <- <-]; repeat split | intros [= <- <- <-]; repeat split].
  destruct (stat_size input_file w1) as [n|e1];
    [|intros [= <- <- <-]; repeat split].
  destruct (spawn _ w1) as [[rc so se | e2] w2];
    [destruct (rc =? 0); [destruct (stat_size _ w2)|]|];
    intros [= <- <- <-];
    cbn [app attempted reports launches successes forallb];
    rewrite ?Hne, Hcmd; repeat split.
Qed.

(** What the loop, returning or not, leaves in the trace. *)
Lemma batch_loop_trace (input_dir output_dir : string) (o : options)
    (files : list string) :
  forall (success_count : Z) (w w' : world) (r : outcome Z) (t : list event),
  loop_over input_dir output_dir o files success_count w = (r, w', t) ->
  reports t = [] /\
  forallb is_ffmpeg (launches t) = true /\
  (exists rest, files = attempted t ++ rest) /\
  (forall k, r = Ret k ->
     k = success_count + successes t /\
     0 <= successes t <= Z.of_nat (List.length files)).
Proof.
  induction files as [|f files IH]; intros c w w' r t.
  - cbn [batch_loop ret]. intros [= <- <- <-].
    cbn [reports launches forallb attempted successes List.length].
    split; [reflexivity | split; [reflexivity | split; [now exists []|]]].
    intros k [= <-]. cbn. lia.
  - cbn [batch_loop]. unfold bind at 1, print at 1. unfold bind at 1.
    destruct (convert _ _ o w) as [[[res|e] w1] t1] eqn:Hc;
      destruct (convert_trace _ _ _ _ _ _ _ Hc) as (Ha & Hr & Hl & Hs).
    + destruct (loop_over _ _ _ _ _ w1) as [[r2 w2] t2] eqn:Hloop.
      destruct (IH _ _ _ _ _ Hloop) as (Hr2 & Hl2 & [rest Hrest] & Hk).
      intros [= <- <- <-].
      cbn [app attempted reports launches].
      rewrite attempted_app, reports_app, launches_app, forallb_app, Ha, Hr,
        Hr2, Hl, Hl2.
      split; [reflexivity | split; [reflexivity | split]].
      * exists rest. cbn [app]. now rewrite <- Hrest.
      * intros k Hk'. destruct (Hk k Hk') as [-> Hb].
        cbn [successes List.length]. rewrite successes_app, Hs.
        destruct (truthy_str res); lia.
    + intros [= <- <- <-]. cbn [app attempted reports launches].
      rewrite Ha, Hr, Hl.
      split; [reflexivity | split; [reflexivity | split]]; [|discriminate].
      exists files. reflexivity.
Qed.

(** X12. What ends a batch before its loop (lines 169-184).  An input
    that is no directory: one line, nothing created.  An output directory
    that cannot be created, or an input directory that cannot be listed:
    the exception leaves [batch_convert] with nothing printed.  No
    matching file: one line.  The directory created is the output
    directory, or the input directory when the output is absent or
    empty. *)
Theorem batch_before_the_loop (input_dir : string)
    (output_dir : option string) (o : options) (w : world) :
  let target := match output_dir with
                | Some (String _ _ as given) => given
                | _ => input_dir
                end in
  (isdir input_dir w = false ->
   batch input_dir output_dir o w
   = (Ret tt, w, [Print (Msg_directory_not_found input_dir)])) /\
  (forall e w1,
     isdir input_dir w = true ->
     makedirs target w = (Raise e, w1) ->
     batch input_dir output_dir o w = (Raise e, w1, [])) /\
  (forall e w1,
     isdir input_dir w = true ->
     makedirs target w = (Ret tt, w1) ->
     listdir input_dir w1 = Raise e ->
     batch input_dir output_dir o w = (Raise e, w1, [])) /\
  (forall names w1,
     isdir input_dir w = true ->
     makedirs target w = (Ret tt, w1) ->
     listdir input_dir w1 = Ret names ->
     select_mkv lower names = [] ->
     batch input_dir output_dir o w = (Ret tt, w1, [Print Msg_no_mkv_files])).
Proof.
  intros target. split; [|split; [|split]].
  - intros Hd. unfold batch_convert, bind at 1, os_path_isdir at 1.
    now rewrite Hd.
  - intros e w1 Hd Hm. unfold batch_convert, bind at 1, os_path_isdir at 1.
    rewrite Hd. cbn [negb]. fold target.
    unfold bind at 1, os_makedirs at 1. now rewrite Hm.
  - intros e w1 Hd Hm Hl. unfold batch_convert, bind at 1, os_path_isdir at 1.
    rewrite Hd. cbn [negb]. fold target.
    unfold bind at 1, os_makedirs at 1. rewrite Hm.
    unfold bind at 1, os_listdir at 1. now rewrite Hl.
  - intros names w1 Hd Hm Hl Hsel.
    unfold batch_convert, bind at 1, os_path_isdir at 1.
    rewrite Hd. cbn [negb]. fold target.
    unfold bind at 1, os_makedirs at 1. rewrite Hm.
    unfold bind at 1, os_listdir at 1. rewrite Hl, Hsel. reflexivity.
Qed.

(** Every batch run either ends before the loop, with nothing started and
    nothing reported, or is the loop over a non-empty selection between
    the "found" line and, when the loop returns, the report. *)
Lemma batch_convert_shape (input_dir : string) (output_dir : option string)
    (o : options) (w w' : world) (r : outcome unit) (t : list event) :
  batch input_dir output_dir o w = (r, w', t) ->
  (launches t = [] /\ reports t = [] /\ successes t = 0) \/
  (exists target files w1 r2 t2,
     files <> [] /\
     loop_over input_dir target o files 0 w1 = (r2, w', t2) /\
     let total := Z.of_nat (List.length files) in
     match r2 with
     | Ret k => t = Print (Msg_found total) :: t2
                      ++ [Print (Msg_converted k total)]
     | Raise _ => t = Print (Msg_found total) :: t2
     end).
Proof.
  unfold batch_convert, bind at 1, os_path_isdir at 1.
  destruct (isdir input_dir w); cbn [negb];
    [|intros [= <- <- <-]; left; repeat split].
  set (target := match output_dir with
                 | Some (String _ _ as given) => given
                 | _ => input_dir
                 end).
  unfold bind at 1, os_makedirs at 1.
  destruct (makedirs target w) as [[[]|e] w1];
    [|intros [= <- <- <-]; left; repeat split].
  unfold bind at 1, os_listdir at 1.
  destruct (listdir input_dir w1) as [names|e];
    [|intros [= <- <- <-]; left; repeat split].
  destruct (select_mkv lower names) as [|f files] eqn:Hsel;
    [intros [= <- <- <-]; left; repeat split|].
  unfold bind, print.
  destruct (loop_over _ _ _ _ _ _) as [[[k|e] w2] t2] eqn:Hloop;
    intros [= <- <- <-]; right;
    exists target, (f :: files), w1; do 2 eexists;
    (split; [discriminate | split; [exact Hloop|]]); cbn [app];
    rewrite ?app_nil_r; reflexivity.
Qed.

(** X13. Every batch run, however it ends, starts no process but the
    transcoder, and prints at most one report; a report [k/n] counts the
    conversions the trace shows as successful, with [0 <= k <= n] and
    [1 <= n]. *)
Theorem batch_trace_invariants (input_dir : string)
    (output_dir : option string) (o : options) (w : world) :
  let t := snd (batch input_dir output_dir o w) in
  forallb is_ffmpeg (launches t) = true /\
  (forall k n, In (k, n) (reports t) ->
     reports t = [(k, n)] /\ k = successes t /\ 0 <= k <= n /\ 1 <= n).
Proof.
  intros t. subst t.
  destruct (batch input_dir output_dir o w) as [[r w'] t] eqn:Hb. cbn [snd].
  destruct (batch_convert_shape _ _ _ _ _ _ _ Hb)
    as [(Hl & Hr & _) | (target & files & w1 & r2 & t2 & Hne & Hloop & Ht)].
  - rewrite Hl, Hr. split; [reflexivity | intros ? ? []].
  - destruct (batch_loop_trace _ _ _ _ _ _ _ _ _ Hloop) as (Hr & Hf & _ & Hk).
    cbv zeta in Ht. destruct r2 as [k|e]; subst t.
    + cbn [launches reports].
      rewrite launches_app, forallb_app, reports_app, Hr, Hf.
      cbn [app launches reports forallb]. split; [reflexivity|].
      intros k' n' [[= <- <-] | []].
      destruct (Hk k eq_refl) as [-> Hb'].
      cbn [successes]. rewrite successes_app. cbn [successes].
      destruct files; [congruence|]. cbn [List.length] in *.
      repeat split; lia.
    + cbn [launches reports]. rewrite Hr, Hf.
      split; [reflexivity | intros ? ? []].
Qed.

End BatchMore.

(** ** More of the probe *)

Section ProbeMore.

Variable world : Type.
Variable spawn : list string -> world -> run_result * world.
Variable json_loads : string -> outcome json.
Variable py_float : json -> outcome spec_float.
Variable round_quotient : Z -> Z -> option spec_float.
Variable eval_other : string -> ME world pyobj.

Local Abbreviation eval := (py_eval world round_quotient eval_other).
Local Abbreviation quotient := (int_truediv round_quotient).
Local Abbreviation rate := (frame_rate world round_quotient eval_other).
Local Abbreviation find :=
  (find_video_stream world py_float round_quotient eval_other).
Local Abbreviation info :=
  (get_video_info world spawn json_loads py_float round_quotient eval_other).

(** The probe, case by case. *)
Lemma get_video_info_cases (input_file : string) (w : world) :
  let q := ffprobe_query input_file in
  let failed e w1 := (@Normal video_info (Ret None), w1 : world,
                      [Run q; Print (Msg_no_video_info e)]) in
  info input_file w
  = match spawn q w with
    | (Launch_failed e, w1) => failed e w1
    | (Completed rc stdout _, w1) =>
        if rc =? 0 then
          match json_loads stdout with
          | Raise e => failed e w1
          | Ret data =>
              match dict_get data "streams" (JList []) with
              | Raise e => failed e w1
              | Ret streams =>
                  match iterate streams with
                  | Raise e => failed e w1
                  | Ret items =>
                      match find items w1 with
                      | (Normal (Ret v), w2, t) => (Normal (Ret v), w2, Run q :: t)
                      | (Normal (Raise e), w2, t) =>
                          (Normal (Ret None), w2,
                           Run q :: t ++ [Print (Msg_no_video_info e)])
                      | (Escaped x, w2, t) => (Escaped x, w2, Run q :: t)
                      end
                  end
              end
          end
        else (Normal (Ret None), w1, [Run q])
    end.
Proof.
  intros q failed. subst failed q.
  unfold get_video_info, ffprobe_query, try_except_e, bind_e, plain, bind,
    subprocess_run, lift, ret, print.
  destruct (spawn _ w) as [[rc so se | e] w1]; [|reflexivity].
  destruct (rc =? 0); [|reflexivity].
  destruct (json_loads so) as [data|e]; [|reflexivity].
  destruct (dict_get data "streams" (JList [])) as [streams|e]; [|reflexivity].
  destruct (iterate streams) as [items|e]; [|reflexivity].
  destruct (find items w1) as [[[[v|e]|x] w2] t]; cbn [app];
    rewrite ?app_nil_r; reflexivity.
Qed.





(** X15. The ways the probe fails (lines 138-164).  A launch that raises
    and output that [json.loads] rejects are reported with the exception; a
    non-zero exit gives the empty result and no line at all; parsed output
    that is no object is reported as an [AttributeError]; an object with no
    ["streams"] member gives the empty result silently. *)
Theorem probe_failures (input_file : string) (w w1 : world) :
  let q := ffprobe_query input_file in
  (forall e, spawn q w = (Launch_failed e, w1) ->
     info input_file w
     = (Ret None, w1, [Run q; Print (Msg_no_video_info e)])) /\
  (forall rc stdout stderr,
     spawn q w = (Completed rc stdout stderr, w1) -> rc <> 0 ->
     info input_file w = (Ret None, w1, [Run q])) /\
  (forall stdout stderr e,
     spawn q w = (Completed 0 stdout stderr, w1) ->
     json_loads stdout = Raise e ->
     info input_file w
     = (Ret None, w1, [Run q; Print (Msg_no_video_info e)])) /\
  (forall stdout stderr data,
     spawn q w = (Completed 0 stdout stderr, w1) ->
     json_loads stdout = Ret data ->
     is_dict data = false ->
     info input_file w
     = (Ret None, w1, [Run q; Print (Msg_no_video_info AttributeError)])) /\
  (forall stdout stderr members,
     spawn q w = (Completed 0 stdout stderr, w1) ->
     json_loads stdout = Ret (JDict members) ->
     assoc "streams" members = None ->
     info input_file w = (Ret None, w1, [Run q])).
Proof.
  intros q. subst q. rewrite get_video_info_cases. cbv zeta. repeat split.
  - intros e H. now rewrite H.
  - intros rc so se H Hrc. rewrite H.
    apply Z.eqb_neq in Hrc. now rewrite Hrc.
  - intros so se e H Hj. now rewrite H, Hj.
  - intros so se data H Hj Hd. rewrite H, Hj.
    destruct data; try discriminate; reflexivity.
  - intros so se members H Hj Hs. rewrite H, Hj.
    cbn [Z.eqb dict_get]. now rewrite Hs.
Qed.


(** A stream that is no object stops the search. *)
Lemma stream_must_be_an_object (stream : json) (rest : list json)
    (w : world) :
  is_dict stream = false ->
  find (stream :: rest) w = (Raise AttributeError, w, []).
Proof. destruct stream; try discriminate; reflexivity. Qed.


Lemma eval_arith_pair (num den : Z) :
  (literal_digits (str_int num) <= max_str_digits)%nat ->
  (literal_digits (str_int den) <= max_str_digits)%nat ->
  eval_arith round_quotient (str_int num ++ "/" ++ str_int den)
  = Some (match quotient num den with
          | Ret f => Ret (ObjFloat f)
          | Raise e => Raise e
          end).
Proof.
  intros Hnum Hden.
  change ("/" ++ str_int den)%string with (String "/" (str_int den)).
  unfold eval_arith.
  destruct (int_literal (str_int num ++ String "/" (str_int den)))
    as [z|] eqn:E.
  - apply int_literal_no_slash in E. rewrite has_char_app in E.
    cbn in E. rewrite orb_true_r in E. discriminate.
  - rewrite (split_slash_app _ _ (str_int_no_slash num)),
      (int_literal_str_int num Hnum), (int_literal_str_int den Hden).
    reflexivity.
Qed.

(** X18. The frame rate at line 153.  A stream that is no object raises
    [AttributeError]; a stream without [r_frame_rate] gives the quotient
    of 0 and 1; a value that is no string raises [TypeError]; a plain
    integer numeral within the digit limit gives that [int]; such a
    numeral over zero raises [ZeroDivisionError]. *)
Theorem frame_rate_edge_cases (members : list (string * json)) (w : world) :
  (forall stream, is_dict stream = false ->
     rate stream w = (Raise AttributeError, w, [])) /\
  (assoc "r_frame_rate" members = None ->
   rate (JDict members) w
   = (match quotient 0 1 with
      | Ret f => Ret (ObjFloat f)
      | Raise e => Raise e
      end, w, [])) /\
  (forall v, assoc "r_frame_rate" members = Some v ->
     (forall s, v <> JStr s) ->
     rate (JDict members) w = (Raise TypeError, w, [])) /\
  (forall z, assoc "r_frame_rate" members = Some (JStr (str_int z)) ->
     (literal_digits (str_int z) <= max_str_digits)%nat ->
     rate (JDict members) w = (Ret (ObjInt z), w, [])) /\
  (forall num,
     assoc "r_frame_rate" members
     = Some (JStr (str_int num ++ "/" ++ str_int 0)) ->
     (literal_digits (str_int num) <= max_str_digits)%nat ->
     rate (JDict members) w = (Raise ZeroDivisionError, w, [])).
Proof.
  repeat split.
  - intros stream H. destruct stream; try discriminate; reflexivity.
  - intros H. unfold frame_rate, bind_e, plain, lift. cbn [dict_get].
    rewrite H. unfold py_eval.
    assert (eval_arith round_quotient "0/1"
            = Some (match quotient 0 1 with
                    | Ret f => Ret (ObjFloat f)
                    | Raise e => Raise e
                    end)) as -> by reflexivity.
    destruct (quotient 0 1); reflexivity.
  - intros v H Hv. unfold frame_rate, bind_e, plain, lift. cbn [dict_get].
    rewrite H. destruct v; try reflexivity. now destruct (Hv s).
  - intros z H Hz. unfold frame_rate, bind_e, plain, lift. cbn [dict_get].
    rewrite H. unfold py_eval, eval_arith.
    rewrite (int_literal_str_int z Hz). reflexivity.
  - intros num H Hn. unfold frame_rate, bind_e, plain, lift. cbn [dict_get].
    rewrite H. unfold py_eval.
    rewrite (eval_arith_pair num 0 Hn) by (apply Nat.leb_le; reflexivity).
    reflexivity.
Qed.

End ProbeMore.

(** ** More of the command line *)

Section MainMore.

Variable float_str : spec_float -> string.
Variable world : Type.
Variable stat_size : string -> world -> outcome Z.
Variable isfile : string -> world -> bool.
Variable isdir : string -> world -> bool.
Variable listdir : string -> world -> outcome (list string).
Variable makedirs : string -> world -> outcome unit * world.
Variable spawn : list string -> world -> run_result * world.
Variable json_loads : string -> outcome json.
Variable py_float : json -> outcome spec_float.
Variable round_quotient : Z -> Z -> option spec_float.
Variable lower : string -> string.
Variable eval_other : string -> ME world pyobj.

Local Abbreviation info :=
  (get_video_info world spawn json_loads py_float round_quotient eval_other).
Local Abbreviation convert :=
  (convert_mkv_to_webp float_str world stat_size spawn).
Local Abbreviation batch :=
  (batch_convert float_str world stat_size isdir listdir makedirs spawn lower).
Local Abbreviation run_main :=
  (main float_str world stat_size isfile isdir listdir makedirs spawn
     json_loads py_float round_quotient lower eval_other).
Local Abbreviation run :=
  (script float_str world stat_size isfile isdir listdir makedirs spawn
     json_loads py_float round_quotient lower eval_other).





(** Every process a batch run starts is the transcoder. *)
Lemma batch_launches (input_dir : string) (output_dir : option string)
    (o : options) (w w' : world) (r : outcome unit) (t : list event) :
  batch input_dir output_dir o w = (r, w', t) ->
  forallb is_ffmpeg (launches t) = true.
Proof.
  intros Hb.
  apply batch_convert_shape in Hb.
  destruct Hb as [(Hl & _) | (target & files & w1 & r2 & t2 & _ & Hloop & Ht)].
  - now rewrite Hl.
  - apply batch_loop_trace in Hloop. destruct Hloop as (_ & Hf & _).
    cbv zeta in Ht. destruct r2; subst t; cbn [launches];
      rewrite ?launches_app, ?forallb_app, Hf; reflexivity.
Qed.

(** X20. With [--batch], or a directory as input, [main] is the batch
    under its exception handler: an exception of the batch is printed and
    [main] returns.  The probe is not run: every process started is the
    transcoder. *)
Theorem main_in_batch_mode (a : args) (w : world) :
  arg_info a = false ->
  arg_batch a || isdir (arg_input a) w = true ->
  forallb is_ffmpeg (launches (snd (run_main a w))) = true /\
  match batch (arg_input a) (arg_output a) (params a) w with
  | (Ret _, w', tb) => run_main a w = (Ret tt, w', tb)
  | (Raise e, w', tb) => run_main a w = (Ret tt, w', tb ++ [Print (Msg_error e)])
  end.
Proof.
  intros Hi Hb.
  assert (match batch (arg_input a) (arg_output a) (params a) w with
          | (Ret _, w', tb) => run_main a w = (Ret tt, w', tb)
          | (Raise e, w', tb) =>
              run_main a w = (Ret tt, w', tb ++ [Print (Msg_error e)])
          end) as Hm.
  { destruct (batch _ _ _ w) as [[[[]|e] w'] tb] eqn:E;
      unfold main; rewrite Hi;
      unfold guarded, bind_e at 1, plain at 1, os_path_isdir at 1;
      rewrite Hb; unfold plain; rewrite E; reflexivity. }
  split; [|exact Hm].
  destruct (batch _ _ _ w) as [[[[]|e] w'] tb] eqn:E;
    apply batch_launches in E; rewrite Hm; cbn [snd];
    rewrite ?launches_app, ?forallb_app, E; reflexivity.
Qed.

(** X21. After a successful single conversion the written file exists,
    and [main] ends with the compression summary, unless the size of the
    input cannot be read any more (the exception is printed) or is zero
    (the division at line 266 raises, and [ZeroDivisionError] is
    printed). *)
Theorem compression_summary (a : args) (w w1 w2 : world) (v : video_info)
    (written : string) (t1 t2 : list event) :
  arg_info a = false ->
  arg_batch a = false ->
  isdir (arg_input a) w = false ->
  info (arg_input a) w = (Ret v, w1, t1) ->
  convert (arg_input a) (arg_output a) (params a) w1
  = (Ret (Some written), w2, t2) ->
  exists webp_size,
    stat_size written w2 = Ret webp_size /\
    run_main a w
    = (Ret tt, w2,
       Print Msg_analyzing :: t1 ++ Print Msg_blank :: t2
         ++ match stat_size (arg_input a) w2 with
            | Raise e => [Print (Msg_error e)]
            | Ret original_size =>
                if original_size =? 0
                then [Print (Msg_error ZeroDivisionError)]
                else compression_report original_size webp_size
            end).
Proof.
  intros Hi Hb Hd Hinfo Hconv.
  assert (exists size c s,
            written = String c s /\ stat_size written w2 = Ret size)
    as (size & c & s & Hw & Hsize).
  { pose proof (resolve_output_nonempty (arg_input a) (arg_output a)) as Hne.
    revert Hconv. rewrite convert_cases. cbv zeta.
    destruct (check_ffmpeg world spawn w1) as [[[[|]|e] w3] t3];
      try discriminate.
    destruct (stat_size (arg_input a) w3); try discriminate.
    destruct (spawn _ w3) as [[rc so se|e] w4]; try discriminate.
    destruct (rc =? 0); try discriminate.
    destruct (stat_size _ w4) as [size|e] eqn:Hs; try discriminate.
    intros [= <- <- <-].
    destruct (resolve_output _ _) as [|c s]; [discriminate|].
    exists size, c, s. split; [reflexivity | exact Hs]. }
  exists size. split; [exact Hsize|].
  unfold main. rewrite Hi, Hb.
  unfold guarded, bind_e at 1, plain at 1, os_path_isdir at 1. rewrite Hd.
  cbn [orb]. unfold bind_e at 1, plain at 1, print at 1.
  unfold bind_e at 1. rewrite Hinfo.
  unfold plain, bind at 1, print at 1. unfold bind at 1. rewrite Hconv.
  subst written. unfold bind at 1, getsize at 1.
  destruct (stat_size (arg_input a) w2) as [original|e];
    [|unfold print; cbn [app]; rewrite ?app_nil_r, <- ?app_assoc; cbn [app];
      rewrite ?app_nil_r, <- ?app_assoc; reflexivity].
  unfold bind at 1, getsize at 1. rewrite Hsize.
  unfold bind, print, raise, ret, compression_report.
  destruct (original =? 0); cbn [app]; rewrite ?app_nil_r, <- ?app_assoc;
    cbn [app]; rewrite ?app_nil_r, <- ?app_assoc; reflexivity.
Qed.

(** X23. When an escape leaves the probe, the run ends there and no
    conversion is attempted.  [SystemExit] gives the
    exit status; any other exception outside [Exception] gives status 1.
    An interrupt is caught only on the conversion path, where the script
    prints the cancellation and ends with status 0; with [--info] it
    passes every handler, as does an evaluation that does not return. *)
Theorem escape_ends_the_run (a : args) (w w1 : world) (x : escape)
    (t1 : list event) :
  let ended (t : list event) : completion Z * world * list event :=
    match x with
    | System_exit status => (Normal (Ret status), w1, t)
    | Base_exception => (Normal (Ret 1), w1, t)
    | _ => (Escaped x, w1, t)
    end in
  info (arg_input a) w = (Escaped x, w1, t1) ->
  (arg_info a = true -> isfile (arg_input a) w = true ->
   run (Parsed a) w = ended (Print Msg_banner :: Print Msg_rule :: t1)) /\
  (arg_info a = false -> arg_batch a || isdir (arg_input a) w = false ->
   run (Parsed a) w
   = match x with
     | Keyboard_interrupt =>
         (Normal (Ret 0), w1,
          Print Msg_banner :: Print Msg_rule :: Print Msg_analyzing
            :: t1 ++ [Print Msg_cancelled])
     | _ => ended (Print Msg_banner :: Print Msg_rule :: Print Msg_analyzing
                     :: t1)
     end).
Proof.
  intros ended Hinfo. subst ended. split.
  - intros Hi Hf. unfold script, main. rewrite Hi.
    unfold bind_e, plain, print, os_path_isfile. rewrite Hf, Hinfo.
    destruct x; reflexivity.
  - intros Hi Hb. unfold script, main. rewrite Hi.
    unfold guarded, bind_e, plain, print, os_path_isdir. rewrite Hb, Hinfo.
    destruct x; reflexivity.
Qed.

End MainMore.

(** ** The further properties on the sample worlds *)

(** A launch refused for lack of permission leaves the check. *)
Lemma check_ffmpeg_answer_witness :
  Sample.spawn Sample.Not_executable version_query Sample.videos
  = (Launch_failed PermissionError, Sample.videos) /\
  PermissionError <> FileNotFoundError /\
  check_ffmpeg Sample.disk (Sample.spawn Sample.Not_executable) Sample.videos
  = (Raise PermissionError, Sample.videos, [Run version_query]).
Proof.
  assert (H : PermissionError <> FileNotFoundError) by discriminate.
  split; [reflexivity | split; [exact H|]].
  exact (proj2 (proj2 (check_ffmpeg_answer Sample.disk
                         (Sample.spawn Sample.Not_executable)
                         Sample.videos Sample.videos))
           PermissionError eq_refl H).
Defined.

(** A negative start time is no seek. *)
Lemma seek_needs_positive_start_witness :
  gt0 (Int (-3)) = false /\
  build_cmd Sample.float_str "clip.mkv" "clip.webp"
    (with_start_time (Int (-3)) default_options)
  = build_cmd Sample.float_str "clip.mkv" "clip.webp"
      (with_start_time (Int 0) default_options).
Proof.
  split; [reflexivity|].
  exact (proj1 (seek_needs_positive_start Sample.float_str "clip.mkv"
                  "clip.webp" default_options (Int (-3)) eq_refl)).
Defined.

(** A file named [.mkv]. *)
Lemma hidden_file_keeps_its_name_witness :
  has_char "." "mkv" = false /\ has_char "/" "mkv" = false /\
  resolve_output ".mkv" None = ".mkv_algorithm_viz.webp".
Proof.
  split; [reflexivity | split; [reflexivity|]].
  exact (hidden_file_keeps_its_name "mkv" eq_refl eq_refl).
Defined.

(** The conversion launch raises [OSError]. *)
Lemma launch_failure_is_caught_witness :
  check_ffmpeg Sample.disk (Studio.spawn Studio.Crashing) Sample.videos
  = (Ret true, Sample.videos, [Run version_query]) /\
  Sample.stat_size "videos/a.mkv" Sample.videos = Ret 5000 /\
  Studio.run_convert Studio.Crashing "videos/a.mkv" None default_options
    Sample.videos
  = (Ret None, Sample.videos,
     [Run version_query;
      Print (Msg_converting "videos/a.mkv" "videos/a_algorithm_viz.webp");
      Print (Msg_running
               (build_cmd Sample.float_str "videos/a.mkv"
                  "videos/a_algorithm_viz.webp" default_options));
      Run (build_cmd Sample.float_str "videos/a.mkv"
             "videos/a_algorithm_viz.webp" default_options);
      Print (Msg_error_running OSError)]).
Proof.
  split; [reflexivity | split; [reflexivity|]].
  exact (launch_failure_is_caught Sample.float_str Sample.disk
           Sample.stat_size (Studio.spawn Studio.Crashing)
           "videos/a.mkv" None default_options Sample.videos Sample.videos
           Sample.videos [Run version_query] 5000 OSError
           eq_refl eq_refl eq_refl).
Defined.

(** The transcoder exits with status 1. *)
Lemma nonzero_exit_is_a_failure_witness :
  check_ffmpeg Sample.disk (Studio.spawn Studio.Failing) Sample.videos
  = (Ret true, Sample.videos, [Run version_query]) /\
  Sample.stat_size "videos/a.mkv" Sample.videos = Ret 5000 /\
  1 <> 0 /\
  Studio.run_convert Studio.Failing "videos/a.mkv" None default_options
    Sample.videos
  = (Ret None, Sample.videos,
     [Run version_query;
      Print (Msg_converting "videos/a.mkv" "videos/a_algorithm_viz.webp");
      Print (Msg_running
               (build_cmd Sample.float_str "videos/a.mkv"
                  "videos/a_algorithm_viz.webp" default_options));
      Run (build_cmd Sample.float_str "videos/a.mkv"
             "videos/a_algorithm_viz.webp" default_options);
      Print Msg_ffmpeg_error; Print (Msg_stderr "Invalid data found")]).
Proof.
  assert (H : 1 <> 0) by lia.
  split; [reflexivity | split; [reflexivity | split; [exact H|]]].
  exact (nonzero_exit_is_a_failure Sample.float_str Sample.disk
           Sample.stat_size (Studio.spawn Studio.Failing)
           "videos/a.mkv" None default_options Sample.videos Sample.videos
           Sample.videos [Run version_query] 5000 1 "" "Invalid data found"
           eq_refl eq_refl eq_refl H).
Defined.

(** The check raises [PermissionError], and so does the conversion. *)
Lemma converter_raises_with_the_probe_witness :
  fst (fst (check_ffmpeg Sample.disk (Sample.spawn Sample.Not_executable)
              Sample.videos)) = Raise PermissionError /\
  fst (fst (Sample.run_convert Sample.Not_executable "videos/a.mkv" None
              default_options Sample.videos)) = Raise PermissionError.
Proof.
  split; [reflexivity|].
  exact (proj2 (converter_raises_with_the_probe Sample.float_str Sample.disk
                  Sample.stat_size (Sample.spawn Sample.Not_executable)
                  "videos/a.mkv" None default_options Sample.videos
                  PermissionError) eq_refl).
Defined.

(** Tool installed and input present: the query, then the command. *)
Lemma converter_launches_witness :
  (exists w1 t1 n,
     check_ffmpeg Sample.disk (Sample.spawn Sample.Writing) Sample.videos
     = (Ret true, w1, t1) /\
     Sample.stat_size "videos/a.mkv" w1 = Ret n) /\
  launches (snd (Sample.run_convert Sample.Writing "videos/a.mkv" None
                   default_options Sample.videos))
  = [version_query;
     build_cmd Sample.float_str "videos/a.mkv" "videos/a_algorithm_viz.webp"
       default_options].
Proof.
  assert (H : exists w1 t1 n,
             check_ffmpeg Sample.disk (Sample.spawn Sample.Writing)
               Sample.videos = (Ret true, w1, t1) /\
             Sample.stat_size "videos/a.mkv" w1 = Ret n).
  { exists Sample.videos, [Run version_query], 5000. split; reflexivity. }
  split; [exact H|].
  exact (proj2 (proj2 (converter_launches Sample.float_str Sample.disk
                         Sample.stat_size (Sample.spawn Sample.Writing)
                         "videos/a.mkv" None default_options Sample.videos))
           H).
Defined.

(** No [ffprobe] installed. *)
Lemma probe_failures_witness :
  Sample.spawn Sample.Writing (ffprobe_query "videos/a.mkv") Sample.videos
  = (Launch_failed FileNotFoundError, Sample.videos) /\
  get_video_info Sample.disk (Sample.spawn Sample.Writing) Sample.json_loads
    Sample.py_float Sample.round_quotient Sample.eval_other "videos/a.mkv"
    Sample.videos
  = (Ret None, Sample.videos,
     [Run (ffprobe_query "videos/a.mkv");
      Print (Msg_no_video_info FileNotFoundError)]).
Proof.
  split; [reflexivity|].
  exact (proj1 (probe_failures Sample.disk (Sample.spawn Sample.Writing)
                  Sample.json_loads Sample.py_float Sample.round_quotient
                  Sample.eval_other "videos/a.mkv" Sample.videos
                  Sample.videos)
           FileNotFoundError eq_refl).
Defined.



(** A stream without a frame rate: [0/1]. *)
Lemma frame_rate_edge_cases_witness :
  assoc "r_frame_rate" [("codec_type", JStr "video")] = None /\
  Studio.rate (JDict [("codec_type", JStr "video")]) Sample.videos
  = (Ret (ObjFloat (S754_zero false)), Sample.videos, []).
Proof.
  split; [reflexivity|].
  exact (proj1 (proj2 (frame_rate_edge_cases Sample.disk
                         Studio.round_quotient Sample.eval_other
                         [("codec_type", JStr "video")] Sample.videos))
           eq_refl).
Defined.

(** A directory that does not exist. *)
Lemma batch_before_the_loop_witness :
  Sample.isdir "missing" Sample.videos = false /\
  Sample.run_batch Sample.Writing "missing" None default_options Sample.videos
  = (Ret tt, Sample.videos, [Print (Msg_directory_not_found "missing")]).
Proof.
  split; [reflexivity|].
  exact (proj1 (batch_before_the_loop Sample.float_str Sample.disk
                  Sample.stat_size Sample.isdir Sample.listdir
                  Sample.makedirs (Sample.spawn Sample.Writing) Sample.lower
                  "missing" None default_options Sample.videos) eq_refl).
Defined.

(** The sample directory with a working tool: 2 out of 2. *)
Lemma batch_trace_invariants_witness :
  let t := snd (Sample.run_batch Sample.Writing "videos" None default_options
                  Sample.videos) in
  In (2, 2) (reports t) /\
  reports t = [(2, 2)] /\ 2 = successes t.
Proof.
  intros t.
  assert (H : In (2, 2) (reports t)) by (left; reflexivity).
  split; [exact H|].
  pose proof (proj2 (batch_trace_invariants Sample.float_str Sample.disk
                       Sample.stat_size Sample.isdir Sample.listdir
                       Sample.makedirs (Sample.spawn Sample.Writing)
                       Sample.lower "videos" None default_options
                       Sample.videos) 2 2 H) as (Hr & Hs & _).
  split; [exact Hr | exact Hs].
Defined.

(** A directory given as input. *)
Lemma main_in_batch_mode_witness :
  arg_info Sample.batch_on_directory = false /\
  arg_batch Sample.batch_on_directory
    || Sample.isdir (arg_input Sample.batch_on_directory) Sample.videos
  = true /\
  forallb is_ffmpeg
    (launches (snd (Studio.run_main Sample.Writing Sample.batch_on_directory
                      Sample.videos))) = true.
Proof.
  split; [reflexivity | split; [reflexivity|]].
  exact (proj1 (main_in_batch_mode Sample.float_str Sample.disk
                  Sample.stat_size Sample.isfile Sample.isdir Sample.listdir
                  Sample.makedirs (Sample.spawn Sample.Writing)
                  Sample.json_loads Sample.py_float Sample.round_quotient
                  Sample.lower Sample.eval_other Sample.batch_on_directory
                  Sample.videos eq_refl eq_refl)).
Defined.

(** One file converted: 5000 bytes before, 1000 after. *)
Lemma compression_summary_witness :
  arg_info Studio.single_file = false /\
  arg_batch Studio.single_file = false /\
  Sample.isdir (arg_input Studio.single_file) Sample.videos = false /\
  exists t,
    fst (Sample.run_convert Sample.Writing "videos/a.mkv" None
           (params Studio.single_file) Sample.videos)
    = (Ret (Some "videos/a_algorithm_viz.webp"), Studio.converted) /\
    Studio.run_main Sample.Writing Studio.single_file Sample.videos
    = (Ret tt, Studio.converted, t ++ compression_report 5000 1000).
Proof.
  split; [reflexivity | split; [reflexivity | split; [reflexivity|]]].
  destruct (compression_summary Sample.float_str Sample.disk
              Sample.stat_size Sample.isfile Sample.isdir Sample.listdir
              Sample.makedirs (Sample.spawn Sample.Writing)
              Sample.json_loads Sample.py_float Sample.round_quotient
              Sample.lower Sample.eval_other Studio.single_file
              Sample.videos Sample.videos Studio.converted None
              "videos/a_algorithm_viz.webp"
              [Run (ffprobe_query "videos/a.mkv");
               Print (Msg_no_video_info FileNotFoundError)]
              (snd (Sample.run_convert Sample.Writing "videos/a.mkv" None
                      (params Studio.single_file) Sample.videos))
              eq_refl eq_refl eq_refl eq_refl eq_refl)
    as (size & Hsize & Hmain).
  injection Hsize as <-.
  exists (Print Msg_analyzing
          :: [Run (ffprobe_query "videos/a.mkv");
              Print (Msg_no_video_info FileNotFoundError)]
          ++ Print Msg_blank
          :: snd (Sample.run_convert Sample.Writing "videos/a.mkv" None
                    (params Studio.single_file) Sample.videos)).
  split; [reflexivity|].
  etransitivity; [exact Hmain|]. vm_compute. reflexivity.
Defined.

(** The frame rate [5/1], and the numeral [5] alone. *)
Lemma frame_rate_of_integer_pair_witness :
  (literal_digits (str_int 5) <= max_str_digits)%nat /\
  (literal_digits (str_int 1) <= max_str_digits)%nat /\
  py_eval Sample.disk Studio.round_quotient Sample.eval_other "5/1"
    Sample.videos
  = (Ret (ObjFloat Sample.five), Sample.videos, []) /\
  parse_frame_rate (int_truediv Studio.round_quotient) "5/1"
  = Some Sample.five /\
  py_eval Sample.disk Studio.round_quotient Sample.eval_other "5"
    Sample.videos
  = (Ret (ObjInt 5), Sample.videos, []) /\
  parse_frame_rate (int_truediv Studio.round_quotient) "5" = None.
Proof.
  assert (H5 : (literal_digits (str_int 5) <= max_str_digits)%nat)
    by (apply Nat.leb_le; reflexivity).
  assert (H1 : (literal_digits (str_int 1) <= max_str_digits)%nat)
    by (apply Nat.leb_le; reflexivity).
  split; [exact H5 | split; [exact H1|]].
  destruct (frame_rate_of_integer_pair Sample.disk Studio.round_quotient
              Sample.eval_other 5 1 Sample.videos H5 H1)
    as [_ [[Heval Hparse] [Hint Hnone]]].
  split; [exact Heval | split; [exact Hparse | split; [exact Hint|]]].
  exact Hnone.
Defined.




(** A frame rate of [exit(7)] under [--info]: the script ends with
    status 7. *)
Lemma escape_ends_the_run_witness :
  Hostile.run_probe "videos/a.mkv" Sample.videos
  = (Escaped (System_exit 7), Sample.videos,
     [Run (ffprobe_query "videos/a.mkv")]) /\
  arg_info Hostile.info_on_file = true /\
  Sample.isfile (arg_input Hostile.info_on_file) Sample.videos = true /\
  Hostile.run_script (Parsed Hostile.info_on_file) Sample.videos
  = (Ret 7, Sample.videos,
     [Print Msg_banner; Print Msg_rule;
      Run (ffprobe_query "videos/a.mkv")]).
Proof.
  split; [reflexivity | split; [reflexivity | split; [reflexivity|]]].
  exact (proj1 (escape_ends_the_run Sample.float_str Sample.disk
                  Sample.stat_size Sample.isfile Sample.isdir Sample.listdir
                  Sample.makedirs Hostile.spawn Hostile.json_loads
                  Studio.py_float Studio.round_quotient Sample.lower
                  Hostile.eval_other Hostile.info_on_file Sample.videos
                  Sample.videos (System_exit 7)
                  [Run (ffprobe_query "videos/a.mkv")] eq_refl)
           eq_refl eq_refl).
Defined.
